(** * web-search-mcp: the two tools of [server.py]

    A shallow embedding of [src/server.py]: the helper [make_request] and
    the tools [brave_search] and [fetch_webpage_text], together with the
    Python operations they rely on (string methods, membership and
    subscripting on decoded JSON, [try]/[except]).

    Python [str] values are Rocq [string]s: one [ascii] stands for one
    code point below 256.  Python [int]s are [Z].  The HTTP client, the
    JSON decoder behind [response.json()] and the BeautifulSoup parser are
    libraries outside the repository: they are variables of the section
    in which the tools are defined. *)

From stdpp Require Import gmap strings list.
From Stdlib Require Import ZArith Ascii String DecimalString Lia.

Local Open Scope string_scope.
Local Open Scope Z_scope.

(** ** Python string operations *)

Module PyStr.

(** [len(s)]. *)
Definition len (s : string) : Z := Z.of_nat (String.length s).

(** [s[:n]] for a stop index [n] that is not negative (the only use in
    the source is [text[:MAX_FETCH_CHARS]]). *)
Fixpoint prefix (n : Z) (s : string) : string :=
  match s with
  | EmptyString => EmptyString
  | String c s' => if n <=? 0 then EmptyString else String c (prefix (n - 1) s')
  end.

(** [c.isspace()] on code points below 256: the characters [str.split()]
    and [str.strip()] treat as white space. *)
Definition isspace (c : ascii) : bool :=
  let n := nat_of_ascii c in
  ((9 <=? n) && (n <=? 13) || (28 <=? n) && (n <=? 32)
   || (n =? 133) || (n =? 160))%nat.

(** [c.lower()] on code points below 256: A-Z, and the Latin-1 capitals
    0xC0-0xDE except the multiplication sign 0xD7. *)
Definition lower_char (c : ascii) : ascii :=
  let n := nat_of_ascii c in
  if ((65 <=? n) && (n <=? 90)
      || (192 <=? n) && (n <=? 222) && negb (n =? 215))%nat
  then ascii_of_nat (n + 32) else c.

(** [s.lower()]. *)
Fixpoint lower (s : string) : string :=
  match s with
  | EmptyString => EmptyString
  | String c s' => String (lower_char c) (lower s')
  end.

(** [s.startswith(p)]. *)
Fixpoint startswith (p s : string) : bool :=
  match p, s with
  | EmptyString, _ => true
  | String a p', String b s' => if Ascii.eqb a b then startswith p' s' else false
  | String _ _, EmptyString => false
  end.

(** [p in s] for two strings: [p] occurs in [s] as a substring. *)
Fixpoint contains (p s : string) : bool :=
  startswith p s ||
  match s with
  | EmptyString => false
  | String _ s' => contains p s'
  end.

(** The word under construction is kept reversed; [flush] closes it. *)
Definition flush (cur : list ascii) : list string :=
  match cur with
  | [] => []
  | _ :: _ => [string_of_list_ascii (rev cur)]
  end.

Fixpoint split_go (cur : list ascii) (s : string) : list string :=
  match s with
  | EmptyString => flush cur
  | String c s' =>
      if isspace c then flush cur ++ split_go [] s'
      else split_go (c :: cur) s'
  end.

(** [s.split()]: the maximal runs of characters that are not white space. *)
Definition split (s : string) : list string := split_go [] s.

(** [sep.join(l)]. *)
Definition join (sep : string) (l : list string) : string := String.concat sep l.

(** [s.lstrip()], [s.rstrip()], [s.strip()]. *)
Fixpoint lstrip (s : string) : string :=
  match s with
  | EmptyString => EmptyString
  | String c s' => if isspace c then lstrip s' else s
  end.

Fixpoint rstrip (s : string) : string :=
  match s with
  | EmptyString => EmptyString
  | String c s' =>
      match rstrip s' with
      | EmptyString => if isspace c then EmptyString else String c EmptyString
      | r => String c r
      end
  end.

Definition strip (s : string) : string := rstrip (lstrip s).

(** [str(n)] for an [int]. *)
Definition of_int (n : Z) : string := NilZero.string_of_int (Z.to_int n).

(** A string is clean when it holds no white space. *)
Fixpoint no_space (s : string) : bool :=
  match s with
  | EmptyString => true
  | String c s' => negb (isspace c) && no_space s'
  end.

End PyStr.

(** The text clean-up of [fetch_webpage_text], line 123:
    [' '.join(text.split())]. *)
Definition normalize (text : string) : string :=
  PyStr.join " " (PyStr.split text).

(** ** Exceptions, outcomes and the request log *)

(** The exception classes the handlers of [server.py] tell apart.  All
    are subclasses of [Exception]; [ValueError] covers its subclasses
    ([json.JSONDecodeError], [UnicodeDecodeError]) and [OtherException]
    every remaining subclass of [Exception] ([TypeError],
    [AttributeError], [KeyError], [httpx.InvalidURL], ...). *)
Inductive PyExc : Type :=
  | RequestError (msg : string)
  | HTTPStatusError (status_code : Z) (msg : string)
  | ConnectionError (msg : string)
  | ValueError (msg : string)
  | OtherException (msg : string).

(** [str(e)], as the f-strings [f"...{e}"] render an exception. *)
Definition exc_str (e : PyExc) : string :=
  match e with
  | RequestError msg | HTTPStatusError _ msg | ConnectionError msg
  | ValueError msg | OtherException msg => msg
  end.

Inductive Outcome (A : Type) : Type :=
  | Returned (a : A)
  | Raised (e : PyExc).
Arguments Returned {A} a.
Arguments Raised {A} e.

#[global] Instance outcome_ret : MRet Outcome := fun A a => Returned a.
#[global] Instance outcome_bind : MBind Outcome := fun A B f m =>
  match m with
  | Returned a => f a
  | Raised e => Raised e
  end.

(** One GET request as the client sends it. *)
Record Request : Type := mkRequest {
  req_url : string;
  req_headers : gmap string string
}.

(** The requests issued so far, oldest first. *)
Definition Net : Type := list Request.

(** A computation that may issue requests and may raise. *)
Definition M (A : Type) : Type := Net -> Outcome A * Net.

#[global] Instance M_ret : MRet M := fun A a net => (Returned a, net).
#[global] Instance M_bind : MBind M := fun A B f m net =>
  match m net with
  | (Returned a, net') => f a net'
  | (Raised e, net') => (Raised e, net')
  end.

Definition raise {A : Type} (e : PyExc) : M A := fun net => (Raised e, net).

Definition lift {A : Type} (o : Outcome A) : M A := fun net => (o, net).

(** [try: body / except ...: handler]: the handler receives the exception
    and returns, raises another one, or raises it again. *)
Definition try_except {A : Type} (body : M A) (handler : PyExc -> M A) : M A :=
  fun net =>
    match body net with
    | (Returned a, net') => (Returned a, net')
    | (Raised e, net') => handler e net'
    end.

(** ** Decoded JSON and the Python operations applied to it *)

(** What [response.json()] returns.  Of a float the code inspects only
    whether it is zero (truth value). *)
#[warnings="-register-all"]
Inductive JSON : Type :=
  | JNull
  | JBool (b : bool)
  | JInt (z : Z)
  | JFloat (is_zero : bool)
  | JStr (s : string)
  | JArr (items : list JSON)
  | JObj (members : gmap string JSON).

(** The operations of the search tool that can fail on a value of the
    wrong type. *)
Inductive PyOp : Type := OpIn | OpSubscript | OpSlice | OpGet.

(** [bool(v)], as [not results] uses it. *)
Definition truthy (v : JSON) : bool :=
  match v with
  | JNull => false
  | JBool b => b
  | JInt z => negb (z =? 0)
  | JFloat is_zero => negb is_zero
  | JStr s => negb (String.eqb s "")
  | JArr items => match items with [] => false | _ :: _ => true end
  | JObj members => negb (bool_decide (members = ∅))
  end.

Definition is_str (key : string) (v : JSON) : bool :=
  match v with
  | JStr s => String.eqb s key
  | _ => false
  end.

Definition chars (s : string) : list JSON :=
  (fun c => JStr (String c EmptyString)) <$> list_ascii_of_string s.

(** ** The parsed document *)

(** The tree BeautifulSoup builds, as far as the code looks at it: text
    nodes, other string nodes (comments, declarations) and tags. *)
#[warnings="-register-all"]
Inductive Node : Type :=
  | NavigableString (s : string)
  | Comment (s : string)
  | Tag (name : string) (children : list Node).

(** [soup(names)] followed by [.extract()] on every match: every subtree
    whose root is a tag named in [names] leaves the tree. *)
Fixpoint extract_node (names : list string) (n : Node) : option Node :=
  match n with
  | Tag name children =>
      if existsb (String.eqb name) names then None
      else Some (Tag name
             ((fix go (l : list Node) : list Node :=
                 match l with
                 | [] => []
                 | c :: l' =>
                     match extract_node names c with
                     | Some c' => c' :: go l'
                     | None => go l'
                     end
                 end) children))
  | _ => Some n
  end.

Definition extract_all (names : list string) (soup : list Node) : list Node :=
  omap (extract_node names) soup.

(** The strings [get_text(strip=True)] collects: every text node in
    document order, stripped, the empty ones left out. *)
Fixpoint all_strings (n : Node) : list string :=
  match n with
  | NavigableString s =>
      let t := PyStr.strip s in
      if String.eqb t "" then [] else [t]
  | Comment _ => []
  | Tag _ children =>
      (fix go (l : list Node) : list string :=
         match l with
         | [] => []
         | c :: l' => (all_strings c ++ go l')%list
         end) children
  end.

(** [soup.get_text(separator=sep, strip=True)]. *)
Definition get_text (sep : string) (soup : list Node) : string :=
  PyStr.join sep (flat_map all_strings soup).

(** ** The environment of a tool invocation *)

Record Response : Type := mkResponse {
  status_code : Z;
  (** [response.headers], by lower-cased field name *)
  resp_headers : gmap string string;
  (** [response.text] *)
  resp_text : string;
  (** what [response.json()] does: the decoded body, or the exception *)
  resp_json : Outcome JSON
}.

Record Env : Type := mkEnv {
  (** [os.getenv("BRAVE_API_KEY")] *)
  BRAVE_API_KEY : option string;
  (** [client.get(url, headers=..., timeout=20.0, follow_redirects=True)] *)
  client_get : Request -> Outcome Response;
  (** the message of the [httpx.HTTPStatusError] of [raise_for_status] *)
  status_text : Response -> string;
  (** [BeautifulSoup(markup, 'html.parser')] *)
  BeautifulSoup : string -> Outcome (list Node);
  (** [str(v)] of a decoded value that is not a [str] *)
  py_str : JSON -> string;
  (** the message of the error an operation raises on a value *)
  error_text : PyOp -> JSON -> string
}.

Definition USER_AGENT : string :=
  "MCPWebUtilServer/1.0 (LanguageModelIntegration; +https://modelcontextprotocol.io)".
Definition MAX_SEARCH_RESULTS : Z := 5.
Definition MAX_FETCH_CHARS : Z := 500000.

Definition nl : string := String "010"%char EmptyString.

(** ** The code of [server.py] *)

Section Server.

Variable env : Env.

(** [key in v]. *)
Definition py_in (key : string) (v : JSON) : Outcome bool :=
  match v with
  | JObj members => Returned (bool_decide (is_Some (members !! key)))
  | JArr items => Returned (existsb (is_str key) items)
  | JStr s => Returned (PyStr.contains key s)
  | _ => Raised (OtherException (error_text env OpIn v))
  end.

(** [v[key]] for a string [key]. *)
Definition py_getitem (v : JSON) (key : string) : Outcome JSON :=
  match v with
  | JObj members =>
      match members !! key with
      | Some x => Returned x
      | None => Raised (OtherException (error_text env OpSubscript v))
      end
  | _ => Raised (OtherException (error_text env OpSubscript v))
  end.

(** The items [for ... in enumerate(v[:n])] goes through. *)
Definition py_slice (v : JSON) (n : Z) : Outcome (list JSON) :=
  match v with
  | JArr items => Returned (take (Z.to_nat n) items)
  | JStr s => Returned (chars (PyStr.prefix n s))
  | _ => Raised (OtherException (error_text env OpSlice v))
  end.

(** [v.get(key, default)]. *)
Definition py_get (v : JSON) (key : string) (default : string) : Outcome JSON :=
  match v with
  | JObj members =>
      match members !! key with
      | Some x => Returned x
      | None => Returned (JStr default)
      end
  | _ => Raised (OtherException (error_text env OpGet v))
  end.

(** [f"{v}"]. *)
Definition fmt (v : JSON) : string :=
  match v with
  | JStr s => s
  | _ => py_str env v
  end.

(** [response.raise_for_status()]. *)
Definition raise_for_status (response : Response) : Outcome unit :=
  if (200 <=? status_code response) && (status_code response <=? 299)
  then Returned tt
  else Raised (HTTPStatusError (status_code response) (status_text env response)).

(** [await client.get(url, headers=headers, ...)]: the request is
    recorded, the environment answers. *)
Definition get (url : string) (headers : gmap string string) : M Response :=
  fun net =>
    let request := mkRequest url headers in
    (client_get env request, (net ++ [request])%list).

Definition make_request (url : string) (headers : option (gmap string string))
  : M Response :=
  let headers :=
    match headers with
    | None => {[ "User-Agent" := USER_AGENT ]}
    | Some headers =>
        <[ "User-Agent" := default USER_AGENT (headers !! "User-Agent") ]> headers
    end in
  try_except
    (response ← get url headers;
     _ ← lift (raise_for_status response);
     mret response)
    (fun exc =>
       match exc with
       | RequestError _ =>
           raise (ConnectionError
                    ("Network error accessing " ++ url ++ ": " ++ exc_str exc))
       | HTTPStatusError code _ =>
           raise (ValueError
                    ("HTTP error " ++ PyStr.of_int code ++ " accessing " ++ url))
       | _ => raise exc
       end).

(** One entry of the numbered list, line 83. *)
Definition entry (i : Z) (title url snippet : JSON) : string :=
  PyStr.of_int (i + 1) ++ ". " ++ fmt title ++ nl
  ++ "   URL: " ++ fmt url ++ nl
  ++ "   Snippet: " ++ fmt snippet ++ nl.

(** The loop of lines 79-83 from index [i] on: [formatted_results] grows
    by one entry per item. *)
Fixpoint format_loop (i : Z) (items : list JSON) (formatted_results : list string)
  : Outcome (list string) :=
  match items with
  | [] => Returned formatted_results
  | result :: items' =>
      title ← py_get result "title" "No Title";
      url ← py_get result "url" "#";
      snippet ← py_get result "description" "No Snippet";
      format_loop (i + 1) items'
        (formatted_results ++ [entry i title url snippet])%list
  end.

(** Lines 78-83: the list [formatted_results] when the loop is over. *)
Definition format_results (results : JSON) : Outcome (list string) :=
  items ← py_slice results MAX_SEARCH_RESULTS;
  format_loop 0 items ["Search Results:"].

(** Lines 69-85, after the response has arrived. *)
Definition search_body (response : Response) : Outcome string :=
  data ← resp_json response;
  has_web ← py_in "web" data;
  if negb has_web then Returned "No web search results found."
  else
    web ← py_getitem data "web";
    has_results ← py_in "results" web;
    if negb has_results then Returned "No web search results found."
    else
      web ← py_getitem data "web";
      results ← py_getitem web "results";
      if negb (truthy results) then Returned "No web search results found."
      else
        formatted_results ← format_results results;
        Returned (PyStr.join nl formatted_results).

Definition search_url (query : string) : string :=
  "https://api.search.brave.com/res/v1/web/search?q=" ++ query
  ++ "&count=" ++ PyStr.of_int MAX_SEARCH_RESULTS.

(** [not BRAVE_API_KEY]. *)
Definition key_missing : bool :=
  match BRAVE_API_KEY env with
  | None => true
  | Some key => String.eqb key ""
  end.

(** Lines 68-85: the block guarded by [try]. *)
Definition search_try (search_url : string) (headers : gmap string string)
  : M string :=
  response ← make_request search_url (Some headers);
  lift (search_body response).

Definition brave_search (query : string) : M string :=
  if key_missing
  then mret "Error: Brave Search API key (BRAVE_API_KEY) is not configured."
  else
    let headers : gmap string string :=
      {[ "Accept" := "application/json";
         "Accept-Encoding" := "gzip";
         "X-Subscription-Token" := default "" (BRAVE_API_KEY env) ]} in
    try_except
      (search_try (search_url query) headers)
      (fun e =>
         match e with
         | ConnectionError _ | ValueError _ =>
             mret ("Error performing search: " ++ exc_str e)
         | _ => mret ("An unexpected error occurred: " ++ exc_str e)
         end).

(** Line 129. *)
Definition truncate (text : string) : string :=
  PyStr.prefix MAX_FETCH_CHARS text
  ++ (if PyStr.len text >? MAX_FETCH_CHARS then "..." else "").

Definition REMOVED_TAGS : list string :=
  ["script"; "style"; "nav"; "footer"; "header"; "aside"].

(** Lines 117-123: the text of a parsed document. *)
Definition extract_text (soup : list Node) : string :=
  normalize (get_text " " (extract_all REMOVED_TAGS soup)).

(** Lines 109-129, after the response has arrived. *)
Definition fetch_body (response : Response) : Outcome string :=
  let content_type :=
    PyStr.lower (default "" (resp_headers response !! "content-type")) in
  if negb (PyStr.contains "text/html" content_type)
  then Returned ("Error: Content type is not HTML (" ++ content_type
                 ++ "). Cannot extract text.")
  else
    soup ← BeautifulSoup env (resp_text response);
    let text := extract_text soup in
    if String.eqb text ""
    then Returned "Could not extract any text content from the page."
    else Returned (truncate text).

(** Lines 106-129: the block guarded by [try]. *)
Definition fetch_try (url : string) : M string :=
  response ← make_request url None;
  lift (fetch_body response).

Definition fetch_webpage_text (url : string) : M string :=
  try_except
    (fetch_try url)
    (fun e =>
       match e with
       | ConnectionError _ | ValueError _ =>
           mret ("Error fetching webpage " ++ url ++ ": " ++ exc_str e)
       | _ =>
           mret ("An unexpected error occurred while processing " ++ url
                 ++ ": " ++ exc_str e)
       end).

End Server.

(** ** Concrete environments *)

Module Sample.

(** A parser for markup made of text and of tags without attributes,
    properly nested.  It stands for [html.parser] on such markup and
    serves to run the tools on concrete pages. *)
Inductive Token : Type :=
  | TOpen (name : string)
  | TClose (name : string)
  | TText (s : string).

Definition text_token (cur : list ascii) : list Token :=
  match cur with
  | [] => []
  | _ :: _ => [TText (string_of_list_ascii (rev cur))]
  end.

Definition tag_token (cur : list ascii) : Token :=
  match string_of_list_ascii (rev cur) with
  | String "/"%char name => TClose name
  | name => TOpen name
  end.

Fixpoint lex (in_tag : bool) (cur : list ascii) (s : string) : list Token :=
  match s with
  | EmptyString => if in_tag then [] else text_token cur
  | String c s' =>
      if in_tag then
        if Ascii.eqb c ">" then tag_token cur :: lex false [] s'
        else lex true (c :: cur) s'
      else
        if Ascii.eqb c "<" then (text_token cur ++ lex true [] s')%list
        else lex false (c :: cur) s'
  end.

(** [open] holds the tags not yet closed, innermost first, each with the
    siblings that precede it; [done] the children read so far, last one
    first. *)
Fixpoint build (tokens : list Token) (open : list (string * list Node))
    (done : list Node) : list Node :=
  match tokens with
  | [] =>
      rev (fold_left
             (fun inner '(name, before) => Tag name (rev inner) :: before)
             open done)
  | TText s :: tokens' => build tokens' open (NavigableString s :: done)
  | TOpen name :: tokens' => build tokens' ((name, done) :: open) []
  | TClose _ :: tokens' =>
      match open with
      | (name, before) :: open' =>
          build tokens' open' (Tag name (rev done) :: before)
      | [] => build tokens' [] done
      end
  end.

Definition plain_parser (markup : string) : Outcome (list Node) :=
  Returned (build (lex false [] markup) [] []).

(** The rendering of values and the messages of errors are not decided
    by the code; these are placeholders. *)
Definition show (v : JSON) : string :=
  match v with
  | JNull => "None"
  | JBool true => "True"
  | JBool false => "False"
  | JInt z => PyStr.of_int z
  | _ => "<value>"
  end.

Definition message (op : PyOp) (v : JSON) : string :=
  match op with
  | OpIn => "argument is not iterable"
  | OpSubscript => "bad subscript"
  | OpSlice => "bad slice"
  | OpGet => "object has no attribute 'get'"
  end.

(** An environment in which every request gets the same answer. *)
Definition constant_env (key : option string) (answer : Outcome Response) : Env :=
  {| BRAVE_API_KEY := key;
     client_get := fun _ => answer;
     status_text := fun r => "status " ++ PyStr.of_int (status_code r);
     BeautifulSoup := plain_parser;
     py_str := show;
     error_text := message |}.

Definition html_page (content_type body : string) : Response :=
  {| status_code := 200;
     resp_headers := {[ "content-type" := content_type ]};
     resp_text := body;
     resp_json := Raised (ValueError "Expecting value: line 1 column 1 (char 0)") |}.

Definition json_page (data : JSON) : Response :=
  {| status_code := 200;
     resp_headers := {[ "content-type" := "application/json" ]};
     resp_text := "";
     resp_json := Returned data |}.

Definition result (title url description : string) : gmap string JSON :=
  {[ "title" := JStr title; "url" := JStr url;
     "description" := JStr description ]}.

Definition item (title url description : string) : JSON :=
  JObj (result title url description).

(** Eight results, the last one without a description. *)
Definition eight_items : list JSON :=
  [item "First" "https://one.example/" "one";
   item "Second" "https://two.example/" "two";
   item "Third" "https://three.example/" "three";
   item "Fourth" "https://four.example/" "four";
   item "Fifth" "https://five.example/" "five";
   item "Sixth" "https://six.example/" "six";
   item "Seventh" "https://seven.example/" "seven";
   JObj {[ "title" := JStr "Eighth" ]}].

Definition search_response (results : JSON) : JSON :=
  JObj {[ "web" := JObj {[ "results" := results ]} ]}.

End Sample.


(** ** Vocabulary of the statements *)

(** A word: not empty, no white space inside. *)
Definition word (w : string) : Prop := w <> "" /\ PyStr.no_space w = true.

Definition clean (cur : list ascii) : Prop :=
  Forall (fun c => PyStr.isspace c = false) cur.

(** The headers [make_request] sends. *)
Definition sent_headers (headers : option (gmap string string))
  : gmap string string :=
  match headers with
  | None => {[ "User-Agent" := USER_AGENT ]}
  | Some headers =>
      <[ "User-Agent" := default USER_AGENT (headers !! "User-Agent") ]> headers
  end.

(** What [make_request] hands back, from the answer of the client. *)
Definition request_outcome (env : Env) (url : string)
    (answer : Outcome Response) : Outcome Response :=
  match answer with
  | Returned response =>
      if (200 <=? status_code response) && (status_code response <=? 299)
      then Returned response
      else Raised (ValueError ("HTTP error " ++ PyStr.of_int (status_code response)
                               ++ " accessing " ++ url))
  | Raised (RequestError msg) =>
      Raised (ConnectionError ("Network error accessing " ++ url ++ ": " ++ msg))
  | Raised (HTTPStatusError code _) =>
      Raised (ValueError ("HTTP error " ++ PyStr.of_int code ++ " accessing " ++ url))
  | Raised e => Raised e
  end.

(** The report of the search tool's handlers for an exception. *)
Definition search_report (e : PyExc) : string :=
  match e with
  | ConnectionError _ | ValueError _ => "Error performing search: " ++ exc_str e
  | _ => "An unexpected error occurred: " ++ exc_str e
  end.

(** The report of the fetch tool's handlers for an exception. *)
Definition fetch_report (url : string) (e : PyExc) : string :=
  match e with
  | ConnectionError _ | ValueError _ =>
      "Error fetching webpage " ++ url ++ ": " ++ exc_str e
  | _ => "An unexpected error occurred while processing " ++ url ++ ": " ++ exc_str e
  end.

Definition search_headers (env : Env) : gmap string string :=
  {[ "Accept" := "application/json";
     "Accept-Encoding" := "gzip";
     "X-Subscription-Token" := default "" (BRAVE_API_KEY env) ]}.

Definition search_request (env : Env) (query : string) : Request :=
  mkRequest (search_url query) (sent_headers (Some (search_headers env))).

Definition fetch_request (url : string) : Request :=
  mkRequest url (sent_headers None).

Ltac unfold_M :=
  unfold try_except, lift, raise, get, mbind, mret,
    M_bind, M_ret, outcome_bind, outcome_ret in *.

(** The answer to a request: a response with a 2xx status. *)
Definition ok_status (response : Response) : bool :=
  (200 <=? status_code response) && (status_code response <=? 299).

Definition serves (env : Env) (request : Request) (response : Response) : Prop :=
  client_get env request = Returned response /\ ok_status response = true.

(** The value [content_type] of line 109. *)
Definition content_type (response : Response) : string :=
  PyStr.lower (default "" (resp_headers response !! "content-type")).

(** The test of line 110 passes. *)
Definition is_html (response : Response) : bool :=
  PyStr.contains "text/html" (content_type response).

(** A string of [n] copies of one character. *)
Definition replicate_char (n : nat) (c : ascii) : string :=
  string_of_list_ascii (repeat c n).

(** A page of one more letter than the limit, without markup. *)
Definition long_page : Response :=
  Sample.html_page "text/html"
    (replicate_char (Z.to_nat (MAX_FETCH_CHARS + 1)) "a").

(** The page of the HTML example and the tree [html.parser] builds for it. *)
Definition hello_markup : string :=
  "<html><body><script>x</script><p>Hello   World</p></body></html>".

Definition hello_soup : list Node :=
  [Tag "html"
     [Tag "body"
        [Tag "script" [NavigableString "x"];
         Tag "p" [NavigableString "Hello   World"]]]].

(** A decoded response without results: an object without [web], or
    whose [web] is an object without [results] or with a [results]
    value that counts as false (the empty array in particular). *)
Inductive no_results : JSON -> Prop :=
  | no_web (data : gmap string JSON) :
      data !! "web" = None -> no_results (JObj data)
  | no_results_key (data web : gmap string JSON) :
      data !! "web" = Some (JObj web) ->
      web !! "results" = None ->
      no_results (JObj data)
  | empty_results (data web : gmap string JSON) (results : JSON) :
      data !! "web" = Some (JObj web) ->
      web !! "results" = Some results ->
      truthy results = false ->
      no_results (JObj data).

(** A decoded response whose result array is [items]. *)
Definition has_results (data : JSON) (items : list JSON) : Prop :=
  exists members web,
    data = JObj members
    /\ members !! "web" = Some (JObj web)
    /\ web !! "results" = Some (JArr items).

(** The entry numbered [n] for a result object: number and title, URL,
    snippet, each absent field replaced by its placeholder. *)
Definition numbered (env : Env) (n : Z) (result : gmap string JSON) : string :=
  PyStr.of_int n ++ ". " ++ fmt env (default (JStr "No Title") (result !! "title")) ++ nl
  ++ "   URL: " ++ fmt env (default (JStr "#") (result !! "url")) ++ nl
  ++ "   Snippet: "
  ++ fmt env (default (JStr "No Snippet") (result !! "description")) ++ nl.

(** Reading a URL as its recipient delimits it: the query component lies
    between the first [?] and the first [#], its fields are separated by
    [&], a field's name ends at its first [=].  Nothing is decoded. *)
Module Url.

Fixpoint before (stop : ascii) (s : string) : string :=
  match s with
  | EmptyString => EmptyString
  | String c s' => if Ascii.eqb c stop then EmptyString else String c (before stop s')
  end.

Fixpoint after (stop : ascii) (s : string) : string :=
  match s with
  | EmptyString => EmptyString
  | String c s' => if Ascii.eqb c stop then s' else after stop s'
  end.

Fixpoint fields (s : string) : list string :=
  match s with
  | EmptyString => [EmptyString]
  | String c s' =>
      if Ascii.eqb c "&" then EmptyString :: fields s'
      else
        match fields s' with
        | f :: fs => String c f :: fs
        | [] => [String c EmptyString]
        end
  end.

Definition query (url : string) : string := after "?" (before "#" url).

Fixpoint lookup (name : string) (fs : list string) : option string :=
  match fs with
  | [] => None
  | f :: fs' => if String.eqb (before "=" f) name then Some (after "=" f)
                else lookup name fs'
  end.

(** The value of the first field called [name]. *)
Definition param (name url : string) : option string :=
  lookup name (fields (query url)).

(** The string does not hold the character. *)
Fixpoint lacks (stop : ascii) (s : string) : bool :=
  match s with
  | EmptyString => true
  | String c s' => negb (Ascii.eqb c stop) && lacks stop s'
  end.

(** The string holds neither [&] nor [#]. *)
Fixpoint undelimited (s : string) : bool :=
  match s with
  | EmptyString => true
  | String c s' => negb (Ascii.eqb c "&") && negb (Ascii.eqb c "#") && undelimited s'
  end.


End Url.

(** ** Vocabulary of the further properties *)

(** The entries for a list of result objects, numbered from [i + 1]. *)
Fixpoint listing (env : Env) (i : Z) (results : list (gmap string JSON))
  : list string :=
  match results with
  | [] => []
  | result :: results' =>
      numbered env (i + 1) result :: listing env (i + 1) results'
  end.




(** A tag named in [names] occurs in the node, at any depth. *)
Fixpoint has_tag (names : list string) (n : Node) : bool :=
  match n with
  | Tag name children =>
      existsb (String.eqb name) names
      || (fix go (l : list Node) : bool :=
            match l with
            | [] => false
            | c :: l' => has_tag names c || go l'
            end) children
  | _ => false
  end.

(** The string without its white space. *)
Fixpoint squeeze (s : string) : string :=
  match s with
  | EmptyString => EmptyString
  | String c s' => if PyStr.isspace c then squeeze s' else String c (squeeze s')
  end.

(** Every white-space character is a single space that follows a
    character that is not white space; [after_space] tells that the
    previous position does not allow a space (start, or a space). The
    string may not end on a space. *)
Fixpoint tidy_go (after_space : bool) (s : string) : bool :=
  match s with
  | EmptyString => negb after_space
  | String c s' =>
      if PyStr.isspace c
      then Ascii.eqb c " " && negb after_space && tidy_go true s'
      else tidy_go false s'
  end.

Definition tidy (s : string) : bool :=
  match s with
  | EmptyString => true
  | String _ _ => tidy_go true s
  end.

(** Induction on a tree, with the property for all children of a tag. *)
Section Trees.

Variable P : Node -> Prop.
Hypothesis P_string : forall s, P (NavigableString s).
Hypothesis P_comment : forall s, P (Comment s).
Hypothesis P_tag : forall name children, Forall P children -> P (Tag name children).

Fixpoint Node_induction (n : Node) : P n :=
  match n with
  | NavigableString s => P_string s
  | Comment s => P_comment s
  | Tag name children =>
      P_tag name children
        ((fix go (l : list Node) : Forall P l :=
            match l with
            | [] => ListDef.Forall_nil P
            | c :: l' => ListDef.Forall_cons P c l' (Node_induction c) (go l')
            end) children)
  end.

End Trees.

(** The node contributes no text: it is a comment, a string of white
    space only, an element of the removal list, or an element all of
    whose children contribute none. *)
Fixpoint textless (n : Node) : bool :=
  match n with
  | NavigableString s => String.eqb (PyStr.strip s) ""
  | Comment _ => true
  | Tag name children =>
      existsb (String.eqb name) REMOVED_TAGS
      || (fix go (l : list Node) : bool :=
            match l with
            | [] => true
            | c :: l' => textless c && go l'
            end) children
  end.

(** ** The tools inside their process *)

(** What the tools use besides the request itself: the client is built
    and entered by [async with httpx.AsyncClient() as client], outside
    the [try]; it is closed when the block is left; the handlers write
    their diagnostics with [print].  Each of the three may raise. *)
Record Host : Type := mkHost {
  (** [httpx.AsyncClient()] and entering the [async with] block *)
  AsyncClient : Outcome unit;
  (** leaving the [async with] block *)
  aclose : Outcome unit;
  (** writing the text of a [print] to standard output *)
  stdout : string -> Outcome unit
}.

(** The code of [server.py] with the client's context manager and the
    [print] calls.  Above, [make_request], [brave_search] and
    [fetch_webpage_text] are this code once the client is at hand, with
    the prints left out. *)
Module Hosted.

(** The requests issued and the lines printed, oldest first. *)
Definition Trace : Type := (Net * list string)%type.

Definition IO (A : Type) : Type := Trace -> Outcome A * Trace.

Definition ret {A : Type} (a : A) : IO A := fun t => (Returned a, t).

Definition bind {A B : Type} (m : IO A) (f : A -> IO B) : IO B :=
  fun t =>
    match m t with
    | (Returned a, t') => f a t'
    | (Raised e, t') => (Raised e, t')
    end.

Definition raise {A : Type} (e : PyExc) : IO A := fun t => (Raised e, t).

Definition lift {A : Type} (o : Outcome A) : IO A := fun t => (o, t).

Definition try_except {A : Type} (body : IO A) (handler : PyExc -> IO A) : IO A :=
  fun t =>
    match body t with
    | (Returned a, t') => (Returned a, t')
    | (Raised e, t') => handler e t'
    end.

Section Tools.

Variable host : Host.
Variable env : Env.

(** [print(text)]. *)
Definition print (text : string) : IO unit :=
  fun t =>
    match stdout host text with
    | Returned _ => (Returned tt, (fst t, (snd t ++ [text])%list))
    | Raised e => (Raised e, t)
    end.

(** [async with httpx.AsyncClient() as client: body].  An exception of
    the entry leaves before the body runs; an exception of the exit
    replaces the outcome of the body. *)
Definition with_client {A : Type} (body : IO A) : IO A :=
  fun t =>
    match AsyncClient host with
    | Raised e => (Raised e, t)
    | Returned _ =>
        let (outcome, t') := body t in
        match aclose host with
        | Returned _ => (outcome, t')
        | Raised e => (Raised e, t')
        end
    end.

Definition get (url : string) (headers : gmap string string) : IO Response :=
  fun t =>
    let request := mkRequest url headers in
    (client_get env request, ((fst t ++ [request])%list, snd t)).

Definition make_request (url : string) (headers : option (gmap string string))
  : IO Response :=
  let headers :=
    match headers with
    | None => {[ "User-Agent" := USER_AGENT ]}
    | Some headers =>
        <[ "User-Agent" := default USER_AGENT (headers !! "User-Agent") ]> headers
    end in
  try_except
    (bind (get url headers) (fun response =>
     bind (lift (raise_for_status env response)) (fun _ =>
     ret response)))
    (fun exc =>
       match exc with
       | RequestError _ =>
           bind (print ("HTTP Request failed: " ++ exc_str exc)) (fun _ =>
           raise (ConnectionError
                    ("Network error accessing " ++ url ++ ": " ++ exc_str exc)))
       | HTTPStatusError code _ =>
           bind (print ("HTTP Status error: " ++ PyStr.of_int code
                        ++ " for " ++ url)) (fun _ =>
           raise (ValueError
                    ("HTTP error " ++ PyStr.of_int code ++ " accessing " ++ url)))
       | _ => raise exc
       end).

(** Lines 68-85: the block guarded by [try]. *)
Definition search_try (search_url : string) (headers : gmap string string)
  : IO string :=
  bind (make_request search_url (Some headers)) (fun response =>
  lift (search_body env response)).

(** Lines 87-91. *)
Definition search_except (e : PyExc) : IO string :=
  match e with
  | ConnectionError _ | ValueError _ =>
      ret ("Error performing search: " ++ exc_str e)
  | _ =>
      bind (print ("Unexpected error during Brave search: " ++ exc_str e))
        (fun _ => ret ("An unexpected error occurred: " ++ exc_str e))
  end.

Definition brave_search (query : string) : IO string :=
  if key_missing env
  then ret "Error: Brave Search API key (BRAVE_API_KEY) is not configured."
  else
    let headers : gmap string string :=
      {[ "Accept" := "application/json";
         "Accept-Encoding" := "gzip";
         "X-Subscription-Token" := default "" (BRAVE_API_KEY env) ]} in
    with_client
      (try_except (search_try (search_url query) headers) search_except).

(** Lines 106-129: the block guarded by [try]. *)
Definition fetch_try (url : string) : IO string :=
  bind (make_request url None) (fun response =>
  lift (fetch_body env response)).

(** Lines 131-135. *)
Definition fetch_except (url : string) (e : PyExc) : IO string :=
  match e with
  | ConnectionError _ | ValueError _ =>
      ret ("Error fetching webpage " ++ url ++ ": " ++ exc_str e)
  | _ =>
      bind (print ("Unexpected error fetching/parsing " ++ url ++ ": "
                   ++ exc_str e))
        (fun _ => ret ("An unexpected error occurred while processing " ++ url
                       ++ ": " ++ exc_str e))
  end.

Definition fetch_webpage_text (url : string) : IO string :=
  with_client (try_except (fetch_try url) (fetch_except url)).

End Tools.

End Hosted.

(** A host on which nothing fails. *)
Definition quiet_host : Host :=
  {| AsyncClient := Returned tt;
     aclose := Returned tt;
     stdout := fun _ => Returned tt |}.

(** A host on which the client cannot be built. *)
Definition clientless_host (e : PyExc) : Host :=
  {| AsyncClient := Raised e;
     aclose := Returned tt;
     stdout := fun _ => Returned tt |}.

(** A host whose standard output rejects every text. *)
Definition mute_host (e : PyExc) : Host :=
  {| AsyncClient := Returned tt;
     aclose := Returned tt;
     stdout := fun _ => Raised e |}.

(** The host fails nowhere. *)
Definition sound (host : Host) : Prop :=
  AsyncClient host = Returned tt
  /\ aclose host = Returned tt
  /\ forall text, stdout host text = Returned tt.

(** ** What is put on the wire *)

(** The URL with every space written [%20]: what the HTTP client sends
    for a URL whose other characters it leaves as they are. *)
Fixpoint escape_spaces (s : string) : string :=
  match s with
  | EmptyString => EmptyString
  | String c s' =>
      if Ascii.eqb c " " then "%20" ++ escape_spaces s'
      else String c (escape_spaces s')
  end.

(** * Properties *)

(** ** Strings *)

Section StringFacts.

Import PyStr.

Lemma append_cons (c : ascii) (s t : string) :
  String c s ++ t = String c (s ++ t).
Proof. reflexivity. Qed.

Lemma append_empty_l (t : string) : "" ++ t = t.
Proof. reflexivity. Qed.

Lemma append_nil_r (s : string) : s ++ "" = s.
Proof.
  induction s as [|c s IH]; [reflexivity|].
  now rewrite append_cons, IH.
Qed.

Lemma append_assoc (a b c : string) : (a ++ b) ++ c = a ++ (b ++ c).
Proof.
  induction a as [|x a IH]; [reflexivity|].
  now rewrite !append_cons, IH.
Qed.

Lemma length_append (a b : string) :
  String.length (a ++ b) = (String.length a + String.length b)%nat.
Proof.
  induction a as [|x a IH]; [reflexivity|].
  rewrite append_cons. simpl. now rewrite IH.
Qed.

Lemma len_append (a b : string) : len (a ++ b) = len a + len b.
Proof. unfold len. rewrite length_append. lia. Qed.

Lemma len_nonneg (s : string) : 0 <= len s.
Proof. unfold len. lia. Qed.

Lemma len_cons (c : ascii) (s : string) : len (String c s) = len s + 1.
Proof. unfold len. simpl. lia. Qed.

(** [s[:n]] has [n] characters when [s] has at least as many. *)
Lemma len_prefix (s : string) :
  forall n, 0 <= n <= len s -> len (prefix n s) = n.
Proof.
  induction s as [|c s IH]; intros n Hn.
  - unfold len in *. simpl in *. lia.
  - rewrite len_cons in Hn. simpl. destruct (Z.leb_spec n 0).
    + unfold len. simpl. lia.
    + rewrite len_cons, IH; lia.
Qed.

Lemma len_prefix_le (s : string) : forall n, 0 <= n -> len (prefix n s) <= n.
Proof.
  induction s as [|c s IH]; intros n Hn; simpl.
  - unfold len. simpl. lia.
  - destruct (Z.leb_spec n 0).
    + unfold len. simpl. lia.
    + rewrite len_cons. specialize (IH (n - 1)). lia.
Qed.

(** [s[:n]] is [s] when [s] has at most [n] characters. *)
Lemma prefix_all (s : string) : forall n, len s <= n -> prefix n s = s.
Proof.
  induction s as [|c s IH]; intros n Hn; [reflexivity|].
  rewrite len_cons in Hn. pose proof (len_nonneg s). simpl.
  destruct (Z.leb_spec n 0); [lia|]. rewrite IH; [reflexivity | lia].
Qed.

(** [s[:n]] starts [s]. *)
Lemma prefix_starts (s : string) : forall n, exists rest, s = prefix n s ++ rest.
Proof.
  induction s as [|c s IH]; intros n; simpl.
  - now exists "".
  - destruct (n <=? 0).
    + now exists (String c s).
    + destruct (IH (n - 1)) as [rest Hrest]. exists rest.
      now rewrite append_cons, <- Hrest.
Qed.

Lemma eqb_empty_true (s : string) : String.eqb s "" = true <-> s = "".
Proof. apply String.eqb_eq. Qed.


Lemma no_space_of_clean (cur : list ascii) :
  clean cur -> no_space (string_of_list_ascii cur) = true.
Proof.
  induction 1 as [|c cur Hc _ IH]; simpl; [reflexivity|].
  now rewrite Hc, IH.
Qed.

Lemma clean_rev (cur : list ascii) : clean cur -> clean (rev cur).
Proof. apply List.Forall_rev. Qed.

Lemma flush_words (cur : list ascii) : clean cur -> Forall word (flush cur).
Proof.
  intros Hcur. destruct cur as [|c cur]; simpl; [constructor|].
  constructor; [|constructor]. split.
  - intros E. apply (f_equal list_ascii_of_string) in E.
    rewrite list_ascii_of_string_of_list_ascii in E. simpl in E.
    now destruct (rev cur).
  - apply no_space_of_clean. now apply (clean_rev (c :: cur)).
Qed.

(** [split] returns words only. *)
Lemma split_go_words (s : string) :
  forall cur, clean cur -> Forall word (split_go cur s).
Proof.
  induction s as [|c s IH]; intros cur Hcur; simpl.
  - now apply flush_words.
  - destruct (isspace c) eqn:Hc.
    + apply Forall_app. split; [now apply flush_words | apply IH; constructor].
    + apply IH. now constructor.
Qed.

Lemma split_words (s : string) : Forall word (split s).
Proof. apply split_go_words. constructor. Qed.

(** Reading a clean string only extends the word under construction. *)
Lemma split_go_clean (u : string) :
  forall cur s, no_space u = true ->
    split_go cur (u ++ s) = split_go (rev (list_ascii_of_string u) ++ cur) s.
Proof.
  induction u as [|c u IH]; intros cur s Hu; [reflexivity|].
  simpl in Hu. apply andb_true_iff in Hu as [Hc Hu].
  apply negb_true_iff in Hc.
  rewrite append_cons. simpl. rewrite Hc, (IH _ _ Hu).
  now rewrite <- app_assoc.
Qed.

Lemma flush_rev_word (w : string) :
  w <> "" -> flush (rev (list_ascii_of_string w)) = [w].
Proof.
  intros Hw. unfold flush.
  destruct (rev (list_ascii_of_string w)) as [|c l] eqn:E.
  - apply (f_equal (@rev ascii)) in E. rewrite rev_involutive in E. simpl in E.
    apply (f_equal string_of_list_ascii) in E.
    rewrite string_of_list_ascii_of_string in E. contradiction.
  - rewrite <- E, rev_involutive, string_of_list_ascii_of_string. reflexivity.
Qed.

(** Splitting the join of words gives the words back. *)
Lemma split_join_words (ws : list string) :
  Forall word ws -> split (join " " ws) = ws.
Proof.
  unfold split, join.
  induction 1 as [|w ws [Hne Hw] Hws IH]; [reflexivity|].
  destruct ws as [|w' ws].
  - simpl. rewrite <- (append_nil_r w) at 1.
    rewrite (split_go_clean w [] "" Hw), app_nil_r. simpl.
    now apply flush_rev_word.
  - change (String.concat " " (w :: w' :: ws))
      with (w ++ String " "%char (String.concat " " (w' :: ws))).
    rewrite (split_go_clean w [] _ Hw), app_nil_r.
    cbn [split_go]. change (isspace " "%char) with true. cbv iota.
    rewrite (flush_rev_word w Hne), IH. reflexivity.
Qed.

End StringFacts.

(** ** Claim C9: white-space normalisation is idempotent *)

(** C9.  The normalisation [' '.join(text.split())] applied by
    [fetch_webpage_text] is idempotent: normalising an already normalised
    string returns it unchanged, for every string. *)
Theorem normalize_idempotent (text : string) :
  normalize (normalize text) = normalize text.
Proof.
  unfold normalize.
  now rewrite (split_join_words (PyStr.split text) (split_words text)).
Qed.

(** ** The request helper *)



(** [make_request] issues exactly one request and translates the two
    httpx failures. *)
Lemma make_request_eq (env : Env) (url : string)
    (headers : option (gmap string string)) (net : Net) :
  make_request env url headers net =
    (request_outcome env url
       (client_get env (mkRequest url (sent_headers headers))),
     (net ++ [mkRequest url (sent_headers headers)])%list).
Proof.
  unfold make_request, request_outcome, raise_for_status, sent_headers.
  unfold_M.
  destruct (client_get env _) as [response|[]]; try reflexivity.
  destruct ((200 <=? status_code response) && (status_code response <=? 299));
    reflexivity.
Qed.

(** [make_request] never lets an httpx exception class through. *)
Lemma make_request_no_httpx (env : Env) url headers net e :
  fst (make_request env url headers net) = Raised e ->
  match e with
  | RequestError _ | HTTPStatusError _ _ => False
  | _ => True
  end.
Proof.
  rewrite make_request_eq. unfold request_outcome. simpl.
  destruct (client_get env _) as [response|[]]; simpl;
    try (intros [= <-]; exact I).
  destruct (_ && _); [discriminate | intros [= <-]; exact I].
Qed.


Lemma search_try_eq (env : Env) (query : string) (net : Net) :
  search_try env (search_url query) (search_headers env) net =
    (response ← request_outcome env (search_url query)
                  (client_get env (search_request env query));
     search_body env response,
     (net ++ [search_request env query])%list).
Proof.
  unfold search_try, mbind at 1, M_bind. rewrite make_request_eq.
  fold (search_request env query).
  now destruct (request_outcome env _ _).
Qed.

Lemma fetch_try_eq (env : Env) (url : string) (net : Net) :
  fetch_try env url net =
    (response ← request_outcome env url (client_get env (fetch_request url));
     fetch_body env response,
     (net ++ [fetch_request url])%list).
Proof.
  unfold fetch_try, mbind at 1, M_bind. rewrite make_request_eq.
  fold (fetch_request url).
  now destruct (request_outcome env _ _).
Qed.

(** The search tool with a credential: the guarded block, its exception
    turned into a report. *)
Lemma brave_search_eq (env : Env) (query : string) (net : Net) :
  key_missing env = false ->
  brave_search env query net =
    (Returned
       match fst (search_try env (search_url query) (search_headers env) net) with
       | Returned s => s
       | Raised e => search_report e
       end,
     (net ++ [search_request env query])%list).
Proof.
  intros Hkey. unfold brave_search. rewrite Hkey.
  fold (search_headers env). unfold try_except.
  rewrite search_try_eq. cbn [fst].
  destruct (_ ≫= _) as [s|e]; [reflexivity|].
  destruct e; reflexivity.
Qed.

(** The fetch tool: the guarded block, its exception turned into a
    report. *)
Lemma fetch_webpage_text_eq (env : Env) (url : string) (net : Net) :
  fetch_webpage_text env url net =
    (Returned
       match fst (fetch_try env url net) with
       | Returned s => s
       | Raised e => fetch_report url e
       end,
     (net ++ [fetch_request url])%list).
Proof.
  unfold fetch_webpage_text, try_except.
  rewrite fetch_try_eq. cbn [fst].
  destruct (_ ≫= _) as [s|e]; [reflexivity|].
  destruct e; reflexivity.
Qed.

(** ** Failures of the guarded block *)

(** A transport failure of the client surfaces with the tool's prefix. *)
Lemma transport_failure_reported (env : Env) (arg msg : string) (net : Net) :
  key_missing env = false ->
  (forall request, client_get env request = Raised (RequestError msg)) ->
  fst (brave_search env arg net) =
    Returned ("Error performing search: Network error accessing "
              ++ search_url arg ++ ": " ++ msg) /\
  fst (fetch_webpage_text env arg net) =
    Returned ("Error fetching webpage " ++ arg ++ ": Network error accessing "
              ++ arg ++ ": " ++ msg).
Proof.
  intros Hkey Hnet. split.
  - rewrite (brave_search_eq env arg net Hkey), search_try_eq, Hnet. reflexivity.
  - rewrite fetch_webpage_text_eq, fetch_try_eq, Hnet. reflexivity.
Qed.

(** A response outside 2xx surfaces with the tool's prefix and the code. *)
Lemma status_failure_reported (env : Env) (arg : string) (net : Net)
    (response : Response) :
  (forall request, client_get env request = Returned response) ->
  (200 <=? status_code response) && (status_code response <=? 299) = false ->
  fst (fetch_webpage_text env arg net) =
    Returned ("Error fetching webpage " ++ arg ++ ": HTTP error "
              ++ PyStr.of_int (status_code response) ++ " accessing " ++ arg).
Proof.
  intros Hget Hstatus.
  rewrite fetch_webpage_text_eq, fetch_try_eq, Hget.
  unfold request_outcome. rewrite Hstatus. reflexivity.
Qed.

(** A body that cannot be decoded surfaces as a search error. *)
Lemma decode_failure_reported (env : Env) (query msg : string) (net : Net)
    (response : Response) :
  key_missing env = false ->
  serves env (search_request env query) response ->
  resp_json response = Raised (ValueError msg) ->
  fst (brave_search env query net)
    = Returned ("Error performing search: " ++ msg).
Proof.
  intros Hkey [Hget Hok] Hjson.
  rewrite (brave_search_eq env query net Hkey), search_try_eq, Hget.
  unfold request_outcome. fold (ok_status response). rewrite Hok.
  cbn [fst mbind outcome_bind]. unfold search_body. now rewrite Hjson.
Qed.

(** ** Claim C2: no credential, no request *)

(** C2.  For every query, when [BRAVE_API_KEY] is not configured (unset,
    or set to the empty string), [brave_search] returns exactly
    "Error: Brave Search API key (BRAVE_API_KEY) is not configured." and
    issues no request: the request log is unchanged. *)
Theorem brave_search_without_key (env : Env) (query : string) (net : Net) :
  BRAVE_API_KEY env = None \/ BRAVE_API_KEY env = Some "" ->
  brave_search env query net =
    (Returned "Error: Brave Search API key (BRAVE_API_KEY) is not configured.",
     net).
Proof.
  intros Hkey. unfold brave_search, key_missing.
  destruct Hkey as [-> | ->]; reflexivity.
Qed.

Lemma brave_search_without_key_witness :
  brave_search (Sample.constant_env None (Raised (RequestError "unreachable")))
    "rocq prover" [] =
    (Returned "Error: Brave Search API key (BRAVE_API_KEY) is not configured.",
     []).
Proof.
  apply (brave_search_without_key
           (Sample.constant_env None (Raised (RequestError "unreachable")))).
  left. reflexivity.
Defined.
(** ** The fetch tool on an HTML page *)

Lemma truncate_long (text : string) :
  MAX_FETCH_CHARS < PyStr.len text ->
  truncate text = PyStr.prefix MAX_FETCH_CHARS text ++ "...".
Proof.
  intros H. unfold truncate.
  destruct (Z.gtb_spec (PyStr.len text) MAX_FETCH_CHARS); [reflexivity | lia].
Qed.

Lemma truncate_short (text : string) :
  PyStr.len text <= MAX_FETCH_CHARS -> truncate text = text.
Proof.
  intros H. unfold truncate.
  destruct (Z.gtb_spec (PyStr.len text) MAX_FETCH_CHARS); [lia|].
  now rewrite append_nil_r, prefix_all.
Qed.

Lemma len_truncate (text : string) :
  PyStr.len (truncate text) <= MAX_FETCH_CHARS + 3.
Proof.
  destruct (Z.le_gt_cases (PyStr.len text) MAX_FETCH_CHARS) as [H|H].
  - rewrite truncate_short; lia.
  - rewrite truncate_long, len_append by lia.
    pose proof (len_prefix_le text MAX_FETCH_CHARS).
    unfold MAX_FETCH_CHARS in *. change (PyStr.len "...") with 3. lia.
Qed.

(** What the tool returns once the page has arrived, is HTML and has been
    parsed. *)
Lemma fetch_html_eq (env : Env) (url : string) (net : Net)
    (response : Response) (soup : list Node) :
  serves env (fetch_request url) response ->
  is_html response = true ->
  BeautifulSoup env (resp_text response) = Returned soup ->
  fetch_webpage_text env url net =
    (Returned
       (if String.eqb (extract_text soup) ""
        then "Could not extract any text content from the page."
        else truncate (extract_text soup)),
     (net ++ [fetch_request url])%list).
Proof.
  intros [Hget Hok] Hhtml Hsoup.
  rewrite fetch_webpage_text_eq, fetch_try_eq, Hget.
  unfold request_outcome. fold (ok_status response). rewrite Hok.
  cbn [fst mbind outcome_bind]. unfold fetch_body.
  fold (content_type response). fold (is_html response). rewrite Hhtml.
  cbn [negb]. rewrite Hsoup. cbn [mbind outcome_bind].
  now destruct (String.eqb (extract_text soup) "").
Qed.

(** ** Claim C3: truncation *)

(** C3, as amended.  For every page whose extracted text is not empty:
    when the text is strictly longer than [MAX_FETCH_CHARS], the tool
    returns exactly its first [MAX_FETCH_CHARS] characters followed by
    "..."; when it has at most [MAX_FETCH_CHARS] characters, the tool
    returns it unchanged, without marker. *)
Theorem fetch_truncates (env : Env) (url : string) (net : Net)
    (response : Response) (soup : list Node) :
  serves env (fetch_request url) response ->
  is_html response = true ->
  BeautifulSoup env (resp_text response) = Returned soup ->
  extract_text soup <> "" ->
  let text := extract_text soup in
  let kept := PyStr.prefix MAX_FETCH_CHARS text in
  fst (fetch_webpage_text env url net)
    = Returned (if MAX_FETCH_CHARS <? PyStr.len text then kept ++ "..." else text)
  /\ PyStr.len kept = Z.min MAX_FETCH_CHARS (PyStr.len text)
  /\ exists rest, text = kept ++ rest.
Proof.
  intros Hserves Hhtml Hsoup Hne text kept.
  rewrite (fetch_html_eq env url net response soup Hserves Hhtml Hsoup).
  fold text. cbn [fst].
  destruct (String.eqb text "") eqn:E; [apply String.eqb_eq in E; contradiction|].
  split; [|split].
  - destruct (Z.ltb_spec MAX_FETCH_CHARS (PyStr.len text)) as [Hlen|Hlen].
    + now rewrite truncate_long.
    + now rewrite truncate_short.
  - subst kept. destruct (Z.le_gt_cases (PyStr.len text) MAX_FETCH_CHARS) as [H|H].
    + rewrite prefix_all by exact H. lia.
    + rewrite len_prefix; unfold MAX_FETCH_CHARS in *; lia.
  - apply prefix_starts.
Qed.

Lemma fetch_truncates_witness :
  fst (fetch_webpage_text
         (Sample.constant_env None
            (Returned (Sample.html_page "text/html" "<p>Hello World</p>")))
         "http://example.org/" [])
    = Returned "Hello World".
Proof.
  apply (fetch_truncates
           (Sample.constant_env None
              (Returned (Sample.html_page "text/html" "<p>Hello World</p>")))
           "http://example.org/" []
           (Sample.html_page "text/html" "<p>Hello World</p>")
           [Tag "p" [NavigableString "Hello World"]]).
  - split; reflexivity.
  - reflexivity.
  - reflexivity.
  - vm_compute. discriminate.
Defined.

(** C3, as stated, fails on a page without text: the extracted text is
    empty, hence no longer than the limit, and the tool returns a fixed
    message instead of the text. *)
Lemma fetch_empty_text_is_replaced :
  let page := Sample.html_page "text/html" "<p>  </p>" in
  let env := Sample.constant_env None (Returned page) in
  serves env (fetch_request "http://example.org/") page
  /\ is_html page = true
  /\ BeautifulSoup env (resp_text page) = Returned [Tag "p" [NavigableString "  "]]
  /\ extract_text [Tag "p" [NavigableString "  "]] = ""
  /\ PyStr.len "" <= MAX_FETCH_CHARS
  /\ fst (fetch_webpage_text env "http://example.org/" [])
       = Returned "Could not extract any text content from the page."
  /\ fst (fetch_webpage_text env "http://example.org/" []) <> Returned "".
Proof.
  cbv zeta. repeat split; try reflexivity; vm_compute; discriminate.
Qed.

(** ** Claim C4: size of the outputs *)

Section LongText.

Import PyStr.

Lemma no_space_replicate (n : nat) : no_space (replicate_char n "a") = true.
Proof. induction n as [|n IH]; [reflexivity|]. unfold replicate_char in *. simpl. exact IH. Qed.

Lemma len_replicate (n : nat) (c : ascii) : len (replicate_char n c) = Z.of_nat n.
Proof.
  induction n as [|n IH]; [reflexivity|].
  change (replicate_char (S n) c) with (String c (replicate_char n c)).
  rewrite len_cons, IH. lia.
Qed.

Lemma lstrip_clean (s : string) : no_space s = true -> lstrip s = s.
Proof.
  destruct s as [|c s]; [reflexivity|]. simpl.
  intros H. apply andb_true_iff in H as [Hc _].
  apply negb_true_iff in Hc. now rewrite Hc.
Qed.

Lemma rstrip_clean (s : string) : no_space s = true -> rstrip s = s.
Proof.
  induction s as [|c s IH]; [reflexivity|]. simpl.
  intros H. apply andb_true_iff in H as [Hc Hs].
  apply negb_true_iff in Hc. rewrite (IH Hs), Hc. now destruct s.
Qed.

Lemma strip_clean (s : string) : no_space s = true -> strip s = s.
Proof. intros H. unfold strip. now rewrite lstrip_clean, rstrip_clean. Qed.

(** A single word is its own normal form. *)
Lemma normalize_word (w : string) : word w -> normalize w = w.
Proof.
  intros Hw. unfold normalize.
  change w with (join " " [w]) at 1.
  now rewrite split_join_words by (constructor; [exact Hw | constructor]).
Qed.

Lemma string_of_snoc (l : list ascii) (c : ascii) (s : string) :
  string_of_list_ascii (l ++ [c]) ++ s = string_of_list_ascii l ++ String c s.
Proof.
  induction l as [|x l IH]; [reflexivity|].
  cbn [app string_of_list_ascii]. now rewrite !append_cons, IH.
Qed.

(** Markup without [<] is one text token. *)
Lemma lex_text (s : string) :
  forall cur, no_space s = true -> s <> "" \/ cur <> [] ->
    (forall c, In c (list_ascii_of_string s) -> c <> "<"%char) ->
    Sample.lex false cur s
      = [Sample.TText (string_of_list_ascii (rev cur) ++ s)].
Proof.
  induction s as [|c s IH]; intros cur Hs Hne Hlt.
  - simpl. destruct Hne as [Hne|Hne]; [contradiction|].
    destruct cur; [contradiction|]. simpl. now rewrite append_nil_r.
  - cbn [Sample.lex]. simpl in Hs. apply andb_true_iff in Hs as [_ Hs].
    destruct (Ascii.eqb_spec c "<") as [->|_].
    + exfalso. apply (Hlt "<"%char); [left|]; reflexivity.
    + rewrite IH; [| exact Hs | right; discriminate
                   | intros x Hx; apply Hlt; now right].
      cbn [rev]. now rewrite string_of_snoc.
Qed.

Lemma replicate_no_lt (n : nat) (c : ascii) :
  In c (list_ascii_of_string (replicate_char n "a")) -> c <> "<"%char.
Proof.
  unfold replicate_char. rewrite list_ascii_of_string_of_list_ascii.
  intros H. apply repeat_spec in H. now subst.
Qed.

(** The page of [S n] letters [a] is read as one text node, and its
    extracted text is the page itself. *)
Lemma letters_page (n : nat) (url : string) (net : Net) :
  let body := replicate_char (S n) "a" in
  fst (fetch_webpage_text
         (Sample.constant_env None (Returned (Sample.html_page "text/html" body)))
         url net)
    = Returned (truncate body).
Proof.
  intros body.
  assert (Hbody : no_space body = true) by apply no_space_replicate.
  assert (Hne : body <> "") by discriminate.
  assert (Hparse : Sample.plain_parser body = Returned [NavigableString body]).
  { unfold Sample.plain_parser.
    rewrite (lex_text body []);
      [reflexivity | exact Hbody | now left | apply replicate_no_lt]. }
  assert (Htext : extract_text [NavigableString body] = body).
  { unfold extract_text, extract_all, get_text. cbn [omap list_omap extract_node flat_map all_strings].
    rewrite (strip_clean body Hbody).
    destruct (String.eqb_spec body ""); [contradiction|].
    cbn [app]. change (join " " [body]) with body.
    now apply normalize_word. }
  rewrite (fetch_html_eq _ url net (Sample.html_page "text/html" body)
             [NavigableString body]).
  - cbn [fst]. rewrite Htext.
    now destruct (String.eqb_spec body ""); [contradiction|].
  - split; reflexivity.
  - reflexivity.
  - exact Hparse.
Qed.

End LongText.

(** C4, as stated, fails: on a page of [MAX_FETCH_CHARS + 1] letters the
    tool returns the first [MAX_FETCH_CHARS] of them followed by "...",
    a string of [MAX_FETCH_CHARS + 3] characters. *)
Lemma fetch_output_exceeds_limit :
  exists s,
    fst (fetch_webpage_text (Sample.constant_env None (Returned long_page))
           "http://example.org/" []) = Returned s
    /\ PyStr.len s = MAX_FETCH_CHARS + 3
    /\ MAX_FETCH_CHARS < PyStr.len s.
Proof.
  unfold long_page.
  assert (E : Z.to_nat (MAX_FETCH_CHARS + 1) = S (Z.to_nat MAX_FETCH_CHARS))
    by (unfold MAX_FETCH_CHARS; lia).
  rewrite E. eexists. split; [apply letters_page|].
  assert (Hlen : PyStr.len (replicate_char (S (Z.to_nat MAX_FETCH_CHARS)) "a")
                 = MAX_FETCH_CHARS + 1).
  { rewrite len_replicate. unfold MAX_FETCH_CHARS. lia. }
  rewrite truncate_long, len_append, len_prefix by (rewrite Hlen; unfold MAX_FETCH_CHARS; lia).
  change (PyStr.len "...") with 3. lia.
Qed.

Lemma length_chars (s : string) : List.length (chars s) = String.length s.
Proof.
  unfold chars.
  induction s as [|c s IH]; [reflexivity|].
  cbn [list_ascii_of_string String.length]. rewrite fmap_cons.
  cbn [List.length]. now rewrite IH.
Qed.

(** The slice taken in line 79 has at most [n] items. *)
Lemma py_slice_length (env : Env) (v : JSON) (n : Z) (items : list JSON) :
  0 <= n -> py_slice env v n = Returned items -> Z.of_nat (List.length items) <= n.
Proof.
  intros Hn. destruct v; simpl; try discriminate; intros [= <-].
  - rewrite length_chars. now apply len_prefix_le.
  - rewrite length_take. lia.
Qed.

(** The loop adds one entry per item and keeps what was there. *)
Lemma format_loop_entries (env : Env) (items : list JSON) :
  forall i acc l,
    format_loop env i items acc = Returned l ->
    exists entries, l = (acc ++ entries)%list /\ List.length entries = List.length items.
Proof.
  induction items as [|result items IH]; intros i acc l; simpl.
  - intros [= <-]. exists []. now rewrite app_nil_r.
  - unfold mbind, outcome_bind.
    destruct (py_get env result "title" _) as [title|]; [|discriminate].
    destruct (py_get env result "url" _) as [url|]; [|discriminate].
    destruct (py_get env result "description" _) as [snippet|]; [|discriminate].
    intros H. apply IH in H as (entries & -> & Hlen).
    exists (entry env i title url snippet :: entries).
    rewrite <- app_assoc. simpl. split; [reflexivity | now rewrite Hlen].
Qed.

(** C4, as amended.  When a page's text is extracted, the string
    [fetch_webpage_text] returns holds at most [MAX_FETCH_CHARS]
    characters of text before the marker and never exceeds
    [MAX_FETCH_CHARS + 3] characters (the limit plus the "..." marker);
    and the list [brave_search] formats never holds more than
    [MAX_SEARCH_RESULTS] entries after its heading. *)
Theorem outputs_bounded (env : Env) :
  (forall url net response soup,
     serves env (fetch_request url) response ->
     is_html response = true ->
     BeautifulSoup env (resp_text response) = Returned soup ->
     exists s,
       fst (fetch_webpage_text env url net) = Returned s
       /\ PyStr.len s <= MAX_FETCH_CHARS + 3
       /\ (s = "Could not extract any text content from the page."
           \/ exists kept marker,
                s = kept ++ marker
                /\ PyStr.len kept <= MAX_FETCH_CHARS
                /\ (marker = "" \/ marker = "..."))) /\
  (forall results formatted_results,
     format_results env results = Returned formatted_results ->
     exists entries,
       formatted_results = "Search Results:" :: entries
       /\ Z.of_nat (List.length entries) <= MAX_SEARCH_RESULTS).
Proof.
  split.
  - intros url net response soup Hserves Hhtml Hsoup.
    rewrite (fetch_html_eq env url net response soup Hserves Hhtml Hsoup).
    cbn [fst]. eexists. split; [reflexivity|].
    destruct (String.eqb (extract_text soup) "").
    + split; [vm_compute; discriminate | now left].
    + split; [apply len_truncate|]. right.
      exists (PyStr.prefix MAX_FETCH_CHARS (extract_text soup)).
      eexists. split; [reflexivity|]. split.
      * apply len_prefix_le. unfold MAX_FETCH_CHARS. lia.
      * destruct (_ >? _); auto.
  - intros results l. unfold format_results, mbind, outcome_bind.
    destruct (py_slice env results MAX_SEARCH_RESULTS) as [items|] eqn:Hslice;
      [|discriminate].
    intros H. apply format_loop_entries in H as (entries & -> & Hlen).
    exists entries. split; [reflexivity|].
    rewrite Hlen. eapply py_slice_length; [|exact Hslice].
    unfold MAX_SEARCH_RESULTS. lia.
Qed.

Lemma outputs_bounded_witness :
  (exists s,
     fst (fetch_webpage_text
            (Sample.constant_env None
               (Returned (Sample.html_page "text/html" "<p>Hello World</p>")))
            "http://example.org/" []) = Returned s
     /\ PyStr.len s <= MAX_FETCH_CHARS + 3
     /\ (s = "Could not extract any text content from the page."
         \/ exists kept marker,
              s = kept ++ marker
              /\ PyStr.len kept <= MAX_FETCH_CHARS
              /\ (marker = "" \/ marker = "..."))) /\
  (exists entries,
     ["Search Results:";
      entry (Sample.constant_env None (Raised (RequestError "")))
        0 (JStr "t") (JStr "u") (JStr "d")]
       = "Search Results:" :: entries
     /\ Z.of_nat (List.length entries) <= MAX_SEARCH_RESULTS).
Proof.
  split.
  - apply (proj1 (outputs_bounded
                    (Sample.constant_env None
                       (Returned (Sample.html_page "text/html" "<p>Hello World</p>"))))
             "http://example.org/" []
             (Sample.html_page "text/html" "<p>Hello World</p>")
             [Tag "p" [NavigableString "Hello World"]]).
    + split; reflexivity.
    + reflexivity.
    + reflexivity.
  - apply (proj2 (outputs_bounded
                    (Sample.constant_env None (Raised (RequestError ""))))
             (JArr [Sample.item "t" "u" "d"])).
    reflexivity.
Defined.

(** ** Claim C7: responses that are not HTML *)

Lemma startswith_append (p s : string) : PyStr.startswith p (p ++ s) = true.
Proof.
  induction p as [|c p IH]; [reflexivity|].
  rewrite append_cons. simpl. now rewrite Ascii.eqb_refl.
Qed.

Lemma contains_startswith (p s : string) :
  PyStr.startswith p s = true -> PyStr.contains p s = true.
Proof. intros H. destruct s; simpl in *; now rewrite H. Qed.

(** [p in a + p + b]. *)
Lemma contains_infix (p a b : string) : PyStr.contains p (a ++ p ++ b) = true.
Proof.
  induction a as [|c a IH].
  - rewrite append_empty_l. apply contains_startswith, startswith_append.
  - rewrite append_cons. simpl. rewrite IH. apply orb_true_r.
Qed.

(** C7, as amended.  For every response whose content-type header,
    converted to lower case (the empty string when the header is
    absent), does not contain "text/html", [fetch_webpage_text] returns
    "Error: Content type is not HTML (<value>). Cannot extract text."
    where <value> is that lower-cased header value; the result mentions
    neither the body nor the parser: no text is extracted. *)
Theorem fetch_rejects_non_html (env : Env) (url : string) (net : Net)
    (response : Response) :
  serves env (fetch_request url) response ->
  PyStr.contains "text/html"
    (PyStr.lower (default "" (resp_headers response !! "content-type"))) = false ->
  let value := PyStr.lower (default "" (resp_headers response !! "content-type")) in
  let message :=
    "Error: Content type is not HTML (" ++ value ++ "). Cannot extract text." in
  fetch_webpage_text env url net
    = (Returned message, (net ++ [fetch_request url])%list)
  /\ PyStr.contains value message = true.
Proof.
  intros [Hget Hok] Hhtml value message. split.
  - rewrite fetch_webpage_text_eq, fetch_try_eq, Hget.
    unfold request_outcome. fold (ok_status response). rewrite Hok.
    cbn [fst mbind outcome_bind]. unfold fetch_body. fold value.
    subst value. now rewrite Hhtml.
  - apply contains_infix.
Qed.

Lemma fetch_rejects_non_html_witness :
  fetch_webpage_text
    (Sample.constant_env None
       (Returned (Sample.html_page "text/plain; charset=UTF-8" "<p>Hello</p>")))
    "http://example.org/notes.txt" []
  = (Returned
       "Error: Content type is not HTML (text/plain; charset=utf-8). Cannot extract text.",
     [fetch_request "http://example.org/notes.txt"])
  /\ PyStr.contains "text/plain; charset=utf-8"
       "Error: Content type is not HTML (text/plain; charset=utf-8). Cannot extract text."
     = true.
Proof.
  apply (fetch_rejects_non_html
           (Sample.constant_env None
              (Returned (Sample.html_page "text/plain; charset=UTF-8" "<p>Hello</p>")))
           "http://example.org/notes.txt" []
           (Sample.html_page "text/plain; charset=UTF-8" "<p>Hello</p>")).
  - split; reflexivity.
  - reflexivity.
Defined.

(** C7, as stated, fails: for the header value
    "text/plain; charset=UTF-8" the returned string holds the lower-cased
    value and does not contain the value the server sent. *)
Lemma fetch_report_lowercases_content_type :
  let page := Sample.html_page "text/plain; charset=UTF-8" "<p>Hello</p>" in
  let env := Sample.constant_env None (Returned page) in
  resp_headers page !! "content-type" = Some "text/plain; charset=UTF-8"
  /\ PyStr.contains "text/html" (PyStr.lower "text/plain; charset=UTF-8") = false
  /\ exists s,
       fst (fetch_webpage_text env "http://example.org/notes.txt" []) = Returned s
       /\ s = "Error: Content type is not HTML (text/plain; charset=utf-8). Cannot extract text."
       /\ PyStr.contains "text/plain; charset=UTF-8" s = false.
Proof.
  cbv zeta. split; [reflexivity|]. split; [reflexivity|].
  eexists. split; [reflexivity|]. split; reflexivity.
Qed.

(** ** Claim C6: text extraction *)

(** Every tag of the removal list leaves the tree with all it contains. *)
Lemma removed_tags_dropped (name : string) (children : list Node) :
  In name REMOVED_TAGS ->
  extract_all REMOVED_TAGS [Tag name children] = [].
Proof.
  unfold REMOVED_TAGS. simpl.
  intros [<-|[<-|[<-|[<-|[<-|[<-|[]]]]]]]; reflexivity.
Qed.

(** The extracted text is a sequence of words, one space between two
    of them: no other white space, none at either end. *)
Lemma extract_text_words (soup : list Node) :
  exists ws, Forall word ws /\ extract_text soup = PyStr.join " " ws.
Proof.
  unfold extract_text, normalize. eexists. split; [apply split_words | reflexivity].
Qed.

(** Normalising the extracted text again changes nothing. *)
Lemma extract_text_normal (soup : list Node) :
  normalize (extract_text soup) = extract_text soup.
Proof.
  unfold extract_text, normalize.
  now rewrite (split_join_words _ (split_words _)).
Qed.

(** C6.  When the response is HTML, its body is
    [<html><body><script>x</script><p>Hello   World</p></body></html>]
    and the parser reads it as the tree html > body > (script > "x",
    p > "Hello   World"), [fetch_webpage_text] returns exactly
    "Hello World": the script element is removed before extraction, the
    run of spaces is collapsed and the ends are trimmed. *)
Theorem fetch_hello_world (env : Env) (url : string) (net : Net)
    (response : Response) :
  serves env (fetch_request url) response ->
  is_html response = true ->
  resp_text response = hello_markup ->
  BeautifulSoup env hello_markup = Returned hello_soup ->
  fst (fetch_webpage_text env url net) = Returned "Hello World".
Proof.
  intros Hserves Hhtml Htext Hsoup. rewrite <- Htext in Hsoup.
  rewrite (fetch_html_eq env url net response hello_soup Hserves Hhtml Hsoup).
  reflexivity.
Qed.

Lemma fetch_hello_world_witness :
  fst (fetch_webpage_text
         (Sample.constant_env None
            (Returned (Sample.html_page "text/html; charset=utf-8" hello_markup)))
         "http://example.org/" [])
    = Returned "Hello World".
Proof.
  apply (fetch_hello_world
           (Sample.constant_env None
              (Returned (Sample.html_page "text/html; charset=utf-8" hello_markup)))
           "http://example.org/" []
           (Sample.html_page "text/html; charset=utf-8" hello_markup)).
  - split; reflexivity.
  - reflexivity.
  - reflexivity.
  - reflexivity.
Defined.

(** ** The search tool on a decoded response *)

(** What the tool returns once the response has arrived and its body has
    been decoded. *)
Lemma brave_search_decoded (env : Env) (query : string) (net : Net)
    (response : Response) (data : JSON) :
  key_missing env = false ->
  serves env (search_request env query) response ->
  resp_json response = Returned data ->
  search_try env (search_url query) (search_headers env) net
    = (search_body env response, (net ++ [search_request env query])%list)
  /\ brave_search env query net =
       (Returned match search_body env response with
                 | Returned s => s
                 | Raised e => search_report e
                 end,
        (net ++ [search_request env query])%list).
Proof.
  intros Hkey [Hget Hok] Hdata.
  assert (Htry : search_try env (search_url query) (search_headers env) net
                 = (search_body env response,
                    (net ++ [search_request env query])%list)).
  { rewrite search_try_eq, Hget. unfold request_outcome.
    fold (ok_status response). now rewrite Hok. }
  split; [exact Htry|].
  now rewrite (brave_search_eq env query net Hkey), Htry.
Qed.

Lemma search_body_no_results (env : Env) (response : Response) (data : JSON) :
  resp_json response = Returned data ->
  no_results data ->
  search_body env response = Returned "No web search results found.".
Proof.
  intros Hdata Hno. unfold search_body. rewrite Hdata.
  cbn [mbind outcome_bind].
  destruct Hno as [m Hweb | m w Hweb Hres | m w r Hweb Hres Hfalse];
    repeat first
      [ rewrite Hweb | rewrite Hres | rewrite Hfalse
      | rewrite bool_decide_eq_true_2 by eauto
      | rewrite bool_decide_eq_false_2 by (intros [? [=]])
      | progress cbn [negb py_in py_getitem mbind outcome_bind] ];
    reflexivity.
Qed.

(** ** Claim C8: no results *)

(** C8, as amended.  For every upstream response decoded to a JSON
    object in which [web] is absent, or is itself an object in which
    [results] is absent or empty, [brave_search] returns exactly
    "No web search results found.": its guarded block returns that
    string, no exception is involved. *)
Theorem brave_search_no_results (env : Env) (query : string) (net : Net)
    (response : Response) (data : JSON) :
  key_missing env = false ->
  serves env (search_request env query) response ->
  resp_json response = Returned data ->
  no_results data ->
  fst (search_try env (search_url query) (search_headers env) net)
    = Returned "No web search results found."
  /\ fst (brave_search env query net) = Returned "No web search results found.".
Proof.
  intros Hkey Hserves Hdata Hno.
  destruct (brave_search_decoded env query net response data Hkey Hserves Hdata)
    as [-> ->].
  rewrite (search_body_no_results env response data Hdata Hno).
  split; reflexivity.
Qed.

Lemma brave_search_no_results_witness :
  fst (search_try
         (Sample.constant_env (Some "key")
            (Returned (Sample.json_page (Sample.search_response (JArr [])))))
         (search_url "rocq")
         (search_headers
            (Sample.constant_env (Some "key")
               (Returned (Sample.json_page (Sample.search_response (JArr []))))))
         [])
    = Returned "No web search results found."
  /\ fst (brave_search
            (Sample.constant_env (Some "key")
               (Returned (Sample.json_page (Sample.search_response (JArr [])))))
            "rocq" [])
     = Returned "No web search results found.".
Proof.
  apply (brave_search_no_results
           (Sample.constant_env (Some "key")
              (Returned (Sample.json_page (Sample.search_response (JArr [])))))
           "rocq" []
           (Sample.json_page (Sample.search_response (JArr [])))
           (Sample.search_response (JArr []))).
  - reflexivity.
  - split; reflexivity.
  - reflexivity.
  - apply (empty_results _ {[ "results" := JArr [] ]} (JArr [])); reflexivity.
Defined.

(** C8, as stated, fails: in the response [{"web": null}] the array
    [web.results] is absent, and the tool returns the report of the
    error raised by ["results" not in None]. *)
Lemma brave_search_null_web_is_an_error :
  let data := JObj {[ "web" := JNull ]} in
  let env := Sample.constant_env (Some "key") (Returned (Sample.json_page data)) in
  py_getitem env data "web" = Returned JNull
  /\ py_in env "results" JNull = Raised (OtherException (error_text env OpIn JNull))
  /\ fst (brave_search env "rocq" [])
       = Returned ("An unexpected error occurred: " ++ error_text env OpIn JNull)
  /\ fst (brave_search env "rocq" []) <> Returned "No web search results found.".
Proof.
  cbv zeta. repeat split; try reflexivity. vm_compute. discriminate.
Qed.

(** ** Claim C5: results beyond the limit *)

Lemma py_get_object (env : Env) (result : gmap string JSON)
    (key placeholder : string) :
  py_get env (JObj result) key placeholder
    = Returned (default (JStr placeholder) (result !! key)).
Proof. unfold py_get. now destruct (result !! key). Qed.

(** One turn of the loop on a result object. *)
Lemma format_loop_object (env : Env) (i : Z) (result : gmap string JSON)
    (items : list JSON) (acc : list string) :
  format_loop env i (JObj result :: items) acc
    = format_loop env (i + 1) items (acc ++ [numbered env (i + 1) result])%list.
Proof.
  cbn [format_loop]. rewrite !py_get_object. reflexivity.
Qed.

Lemma search_body_results (env : Env) (response : Response) (data : JSON)
    (items : list JSON) :
  resp_json response = Returned data ->
  has_results data items ->
  items <> [] ->
  search_body env response
    = (formatted_results ← format_results env (JArr items);
       Returned (PyStr.join nl formatted_results)).
Proof.
  intros Hdata (m & w & -> & Hweb & Hres) Hitems.
  unfold search_body. rewrite Hdata.
  repeat first
    [ rewrite Hweb | rewrite Hres
    | rewrite bool_decide_eq_true_2 by eauto
    | progress cbn [negb py_in py_getitem mbind outcome_bind] ].
  destruct items; [contradiction | reflexivity].
Qed.

(** C5.  For every upstream response whose result array starts with
    five result objects, whatever follows them (so for every array of
    more than [MAX_SEARCH_RESULTS] result objects, e.g. 8),
    [brave_search] returns the heading and exactly five entries,
    numbered 1 to 5 in the order of the array; the items after the
    fifth do not appear. *)
Theorem brave_search_keeps_first_five (env : Env) (query : string) (net : Net)
    (response : Response) (data : JSON)
    (r1 r2 r3 r4 r5 : gmap string JSON) (beyond : list JSON) :
  key_missing env = false ->
  serves env (search_request env query) response ->
  resp_json response = Returned data ->
  has_results data
    (JObj r1 :: JObj r2 :: JObj r3 :: JObj r4 :: JObj r5 :: beyond) ->
  fst (brave_search env query net)
    = Returned (PyStr.join nl
        ["Search Results:";
         numbered env 1 r1; numbered env 2 r2; numbered env 3 r3;
         numbered env 4 r4; numbered env 5 r5]).
Proof.
  intros Hkey Hserves Hdata Hresults.
  destruct (brave_search_decoded env query net response data Hkey Hserves Hdata)
    as [_ ->].
  rewrite (search_body_results env response data _ Hdata Hresults) by discriminate.
  unfold format_results. cbn [py_slice mbind outcome_bind].
  change (take (Z.to_nat MAX_SEARCH_RESULTS)
            (JObj r1 :: JObj r2 :: JObj r3 :: JObj r4 :: JObj r5 :: beyond))
    with [JObj r1; JObj r2; JObj r3; JObj r4; JObj r5].
  rewrite !format_loop_object. reflexivity.
Qed.

Lemma brave_search_keeps_first_five_witness :
  let env :=
    Sample.constant_env (Some "key")
      (Returned (Sample.json_page
                   (Sample.search_response (JArr Sample.eight_items)))) in
  fst (brave_search env "rocq" [])
    = Returned (PyStr.join nl
        ["Search Results:";
         numbered env 1 (Sample.result "First" "https://one.example/" "one");
         numbered env 2 (Sample.result "Second" "https://two.example/" "two");
         numbered env 3 (Sample.result "Third" "https://three.example/" "three");
         numbered env 4 (Sample.result "Fourth" "https://four.example/" "four");
         numbered env 5 (Sample.result "Fifth" "https://five.example/" "five")]).
Proof.
  cbv zeta.
  apply (brave_search_keeps_first_five
           (Sample.constant_env (Some "key")
              (Returned (Sample.json_page
                           (Sample.search_response (JArr Sample.eight_items)))))
           "rocq" []
           (Sample.json_page (Sample.search_response (JArr Sample.eight_items)))
           (Sample.search_response (JArr Sample.eight_items))
           (Sample.result "First" "https://one.example/" "one")
           (Sample.result "Second" "https://two.example/" "two")
           (Sample.result "Third" "https://three.example/" "three")
           (Sample.result "Fourth" "https://four.example/" "four")
           (Sample.result "Fifth" "https://five.example/" "five")
           [Sample.item "Sixth" "https://six.example/" "six";
            Sample.item "Seventh" "https://seven.example/" "seven";
            JObj {[ "title" := JStr "Eighth" ]}]).
  - reflexivity.
  - split; reflexivity.
  - reflexivity.
  - exists {[ "web" := JObj {[ "results" := JArr Sample.eight_items ]} ]},
           {[ "results" := JArr Sample.eight_items ]}.
    repeat split; reflexivity.
Defined.

(** The text returned for the eight results: five entries, 1 to 5. *)
Example eight_results_text :
  fst (brave_search
         (Sample.constant_env (Some "key")
            (Returned (Sample.json_page
                         (Sample.search_response (JArr Sample.eight_items)))))
         "rocq" [])
    = Returned
        ("Search Results:" ++ nl
         ++ "1. First" ++ nl ++ "   URL: https://one.example/" ++ nl
         ++ "   Snippet: one" ++ nl ++ nl
         ++ "2. Second" ++ nl ++ "   URL: https://two.example/" ++ nl
         ++ "   Snippet: two" ++ nl ++ nl
         ++ "3. Third" ++ nl ++ "   URL: https://three.example/" ++ nl
         ++ "   Snippet: three" ++ nl ++ nl
         ++ "4. Fourth" ++ nl ++ "   URL: https://four.example/" ++ nl
         ++ "   Snippet: four" ++ nl ++ nl
         ++ "5. Fifth" ++ nl ++ "   URL: https://five.example/" ++ nl
         ++ "   Snippet: five" ++ nl).
Proof. vm_compute. reflexivity. Qed.

(** ** Claim C10: the query in the request URL *)

Section UrlFacts.

Import Url.

Lemma before_append (stop : ascii) (a b : string) :
  lacks stop a = true -> before stop (a ++ b) = a ++ before stop b.
Proof.
  induction a as [|c a IH]; [reflexivity|].
  simpl. intros H. apply andb_true_iff in H as [Hc Ha].
  apply negb_true_iff in Hc.
  rewrite ?append_cons. simpl. now rewrite Hc, IH.
Qed.

Lemma after_append (stop : ascii) (a b : string) :
  lacks stop a = true -> after stop (a ++ String stop b) = b.
Proof.
  induction a as [|c a IH].
  - intros _. rewrite append_empty_l. simpl. now rewrite Ascii.eqb_refl.
  - simpl. intros H. apply andb_true_iff in H as [Hc Ha].
    apply negb_true_iff in Hc.
    rewrite ?append_cons. simpl. now rewrite Hc, IH.
Qed.

(** The first field ends at the first [&]. *)
Lemma fields_head (s : string) : exists fs, fields s = before "&" s :: fs.
Proof.
  induction s as [|c s [fs IH]]; simpl.
  - now exists [].
  - destruct (Ascii.eqb c "&"); [now eexists|].
    rewrite IH. now eexists.
Qed.

(** The value of [q] in the URL the tool builds: the query up to its
    first [&] or [#]. *)
Lemma param_q_search_url (query : string) :
  param "q" (search_url query)
    = Some (before "&" (before "#" (query ++ "&count=5"))).
Proof.
  unfold param, Url.query.
  change (search_url query)
    with ("https://api.search.brave.com/res/v1/web/search?q="
          ++ (query ++ "&count=5")).
  rewrite before_append by reflexivity.
  change ("https://api.search.brave.com/res/v1/web/search?q="
          ++ before "#" (query ++ "&count=5"))
    with ("https://api.search.brave.com/res/v1/web/search"
          ++ String "?" ("q=" ++ before "#" (query ++ "&count=5"))).
  rewrite after_append by reflexivity.
  destruct (fields_head ("q=" ++ before "#" (query ++ "&count=5"))) as [fs Hfs].
  rewrite Hfs. reflexivity.
Qed.

Lemma before_delimiters (query tail : string) :
  before "&" (before "#" (query ++ String "&" tail)) = query
  <-> undelimited query = true.
Proof.
  induction query as [|c query IH].
  - rewrite append_empty_l. simpl. split; reflexivity.
  - rewrite append_cons. cbn [before undelimited].
    destruct (Ascii.eqb c "#") eqn:Hhash.
    + rewrite andb_false_r. simpl. split; discriminate.
    + cbn [before]. destruct (Ascii.eqb c "&") eqn:Hamp.
      * simpl. split; discriminate.
      * cbn [negb andb]. rewrite <- IH. split.
        -- intros [= H]. exact H.
        -- intros H. now rewrite H.
Qed.

End UrlFacts.

Section WireFacts.

Import Url.









End WireFacts.



(** An ampersand in the query ends the field [q]. *)
Example ampersand_cuts_query :
  Url.param "q" (search_url "salt&pepper") = Some "salt".
Proof. reflexivity. Qed.

(** A space in the query is not sent as a space. *)
Example space_is_escaped :
  Url.param "q" (escape_spaces (search_url "rocq prover")) = Some "rocq%20prover".
Proof. reflexivity. Qed.


(** * Further properties of [server.py] *)

(** ** [make_request] *)

(** X1.  Whatever the client answers, [make_request] issues exactly one
    request, to the URL it was given.  The request carries a User-Agent:
    the caller's when the caller set one, the default otherwise; every
    other header of the caller is sent unchanged, and nothing is added. *)
Theorem make_request_one_request (env : Env) (url : string)
    (headers : option (gmap string string)) (net : Net) :
  exists sent : gmap string string,
    snd (make_request env url headers net) = (net ++ [mkRequest url sent])%list
    /\ sent !! "User-Agent"
       = Some (default USER_AGENT (default ∅ headers !! "User-Agent"))
    /\ forall name, name <> "User-Agent" ->
         sent !! name = default ∅ headers !! name.
Proof.
  exists (sent_headers headers). rewrite make_request_eq. cbn [snd].
  split; [reflexivity|]. destruct headers as [h|]; cbn [sent_headers default].
  - split; [apply lookup_insert_eq|].
    intros name Hname. now apply lookup_insert_ne.
  - split; [now rewrite lookup_singleton_eq, lookup_empty|].
    intros name Hname. now rewrite lookup_singleton_ne, lookup_empty.
Qed.

(** X2.  [make_request] returns a response exactly when the client
    returned that response with a status from 200 to 299; it never
    returns a response with another status. *)
Theorem make_request_returns_success (env : Env) (url : string)
    (headers : option (gmap string string)) (net : Net) (response : Response) :
  fst (make_request env url headers net) = Returned response
  <-> client_get env (mkRequest url (sent_headers headers)) = Returned response
      /\ 200 <= status_code response <= 299.
Proof.
  rewrite make_request_eq. cbn [fst]. unfold request_outcome.
  destruct (client_get env _) as [r|e].
  - destruct (Z.leb_spec 200 (status_code r));
      destruct (Z.leb_spec (status_code r) 299); cbn [andb];
      (split; [intros [= ->] | intros [[= ->] ?]]); try (split; [reflexivity|]);
      try reflexivity; lia.
  - split; [|intros [[=] _]]. destruct e; discriminate.
Qed.

Lemma make_request_returns_success_witness :
  fst (make_request
         (Sample.constant_env None (Returned (Sample.html_page "text/html" "")))
         "http://example.org/" None [])
    = Returned (Sample.html_page "text/html" "").
Proof.
  apply (proj2 (make_request_returns_success
                  (Sample.constant_env None
                     (Returned (Sample.html_page "text/html" "")))
                  "http://example.org/" None []
                  (Sample.html_page "text/html" ""))).
  split; [reflexivity|]. simpl. lia.
Defined.

(** ** Failures of the request, as the tools report them *)









(** ** The search tool: request, listing, shapes *)

(** X7.  With a credential [key], the one request of [brave_search]
    carries exactly four headers: the key as X-Subscription-Token,
    Accept application/json, Accept-Encoding gzip, and the default
    User-Agent added by [make_request]. *)
Theorem brave_search_sends_credential (env : Env) (query key : string)
    (net : Net) :
  BRAVE_API_KEY env = Some key ->
  key <> "" ->
  exists sent : gmap string string,
    snd (brave_search env query net)
      = (net ++ [mkRequest (search_url query) sent])%list
    /\ sent = {[ "X-Subscription-Token" := key;
                 "Accept" := "application/json";
                 "Accept-Encoding" := "gzip";
                 "User-Agent" := USER_AGENT ]}.
Proof.
  intros Hkey Hne.
  assert (Hmissing : key_missing env = false).
  { unfold key_missing. rewrite Hkey. now apply String.eqb_neq. }
  exists (sent_headers (Some (search_headers env))).
  split; [now rewrite (brave_search_eq env query net Hmissing)|].
  unfold sent_headers, search_headers. rewrite Hkey. cbn [default].
  apply map_eq. intros name.
  destruct (decide (name = "User-Agent")) as [->|Hua];
    [now rewrite lookup_insert_eq|].
  rewrite lookup_insert_ne by congruence.
  destruct (decide (name = "Accept")) as [->|Ha]; [reflexivity|].
  destruct (decide (name = "Accept-Encoding")) as [->|Hae]; [reflexivity|].
  destruct (decide (name = "X-Subscription-Token")) as [->|Hx];
    [now rewrite !lookup_insert_eq|].
  rewrite !lookup_insert_ne by congruence.
  now rewrite !lookup_singleton_ne by congruence.
Qed.

Lemma brave_search_sends_credential_witness :
  exists sent : gmap string string,
    snd (brave_search
           (Sample.constant_env (Some "key") (Raised (RequestError "refused")))
           "rocq" [])
      = ([] ++ [mkRequest (search_url "rocq") sent])%list
    /\ sent = {[ "X-Subscription-Token" := "key";
                 "Accept" := "application/json";
                 "Accept-Encoding" := "gzip";
                 "User-Agent" := USER_AGENT ]}.
Proof.
  apply (brave_search_sends_credential
           (Sample.constant_env (Some "key") (Raised (RequestError "refused")))
           "rocq" "key" []).
  - reflexivity.
  - discriminate.
Defined.

(** The loop on result objects only. *)
Lemma format_loop_objects (env : Env) (results : list (gmap string JSON)) :
  forall i acc,
    format_loop env i (JObj <$> results) acc
      = Returned (acc ++ listing env i results)%list.
Proof.
  induction results as [|r results IH]; intros i acc.
  - cbn. now rewrite app_nil_r.
  - rewrite fmap_cons, format_loop_object, IH, <- app_assoc. reflexivity.
Qed.


Lemma length_listing (env : Env) (results : list (gmap string JSON)) :
  forall i, List.length (listing env i results) = List.length results.
Proof.
  induction results as [|r results IH]; intros i; [reflexivity|].
  cbn [listing List.length]. now rewrite IH.
Qed.

(** X8.  When the results array is not empty and its first five items
    (all of them, when there are fewer) are result objects, [brave_search]
    returns the heading followed by one entry per such object, numbered
    from 1 in the order of the array: as many entries as objects, at
    most five. *)
Theorem brave_search_lists_objects (env : Env) (query : string) (net : Net)
    (response : Response) (data : JSON) (items : list JSON)
    (results : list (gmap string JSON)) :
  key_missing env = false ->
  serves env (search_request env query) response ->
  resp_json response = Returned data ->
  has_results data items ->
  results <> [] ->
  take 5 items = JObj <$> results ->
  fst (brave_search env query net)
    = Returned (PyStr.join nl ("Search Results:" :: listing env 0 results))
  /\ List.length (listing env 0 results) = List.length results
  /\ (List.length results <= 5)%nat.
Proof.
  intros Hkey Hserves Hdata Hresults Hne Htake.
  destruct (brave_search_decoded env query net response data Hkey Hserves Hdata)
    as [_ ->].
  assert (Hitems : items <> []).
  { intros ->. destruct results; [contradiction | discriminate]. }
  rewrite (search_body_results env response data items Hdata Hresults Hitems).
  unfold format_results. cbn [py_slice mbind outcome_bind].
  change (Z.to_nat MAX_SEARCH_RESULTS) with 5%nat.
  rewrite Htake, format_loop_objects. cbn [fst mbind outcome_bind app].
  split; [reflexivity|]. split; [apply length_listing|].
  apply (f_equal (@List.length JSON)) in Htake.
  rewrite length_take, length_fmap in Htake. lia.
Qed.

Lemma brave_search_lists_objects_witness :
  let env :=
    Sample.constant_env (Some "key")
      (Returned (Sample.json_page
                   (Sample.search_response
                      (JArr [Sample.item "Only" "https://one.example/" "one";
                             JObj ∅])))) in
  fst (brave_search env "rocq" [])
    = Returned (PyStr.join nl
        ("Search Results:"
         :: listing env 0 [Sample.result "Only" "https://one.example/" "one"; ∅]))
  /\ List.length
       (listing env 0 [Sample.result "Only" "https://one.example/" "one"; ∅])
     = 2%nat
  /\ (2 <= 5)%nat.
Proof.
  cbv zeta.
  apply (brave_search_lists_objects
           (Sample.constant_env (Some "key")
              (Returned (Sample.json_page
                           (Sample.search_response
                              (JArr [Sample.item "Only" "https://one.example/" "one";
                                     JObj ∅])))))
           "rocq" []
           (Sample.json_page
              (Sample.search_response
                 (JArr [Sample.item "Only" "https://one.example/" "one"; JObj ∅])))
           (Sample.search_response
              (JArr [Sample.item "Only" "https://one.example/" "one"; JObj ∅]))
           [Sample.item "Only" "https://one.example/" "one"; JObj ∅]
           [Sample.result "Only" "https://one.example/" "one"; ∅]).
  - reflexivity.
  - split; reflexivity.
  - reflexivity.
  - eexists _, _. repeat split; reflexivity.
  - discriminate.
  - reflexivity.
Defined.

(** The text for one complete result and one result without fields: every
    absent field shows its placeholder. *)
Example placeholders_text :
  fst (brave_search
         (Sample.constant_env (Some "key")
            (Returned (Sample.json_page
                         (Sample.search_response
                            (JArr [Sample.item "Only" "https://one.example/" "one";
                                   JObj ∅])))))
         "rocq" [])
    = Returned
        ("Search Results:" ++ nl
         ++ "1. Only" ++ nl ++ "   URL: https://one.example/" ++ nl
         ++ "   Snippet: one" ++ nl ++ nl
         ++ "2. No Title" ++ nl ++ "   URL: #" ++ nl
         ++ "   Snippet: No Snippet" ++ nl).
Proof. vm_compute. reflexivity. Qed.



Lemma join_cons_starts (sep x : string) (l : list string) :
  exists rest, PyStr.join sep (x :: l) = x ++ rest.
Proof.
  destruct l as [|y l].
  - exists "". cbn. now rewrite append_nil_r.
  - now eexists.
Qed.

(** What the guarded block of the search tool can return. *)
Lemma search_body_returns (env : Env) (response : Response) (s : string) :
  search_body env response = Returned s ->
  s = "No web search results found."
  \/ exists rest, s = "Search Results:" ++ rest.
Proof.
  unfold search_body, mbind, outcome_bind.
  destruct (resp_json response) as [data|]; [|discriminate].
  destruct (py_in env "web" data) as [[]|]; cbn [negb];
    [| intros [= <-]; now left | discriminate].
  destruct (py_getitem env data "web") as [web|]; [|discriminate].
  destruct (py_in env "results" web) as [[]|]; cbn [negb];
    [| intros [= <-]; now left | discriminate].
  destruct (py_getitem env web "results") as [results|]; [|discriminate].
  destruct (truthy results); cbn [negb]; [| intros [= <-]; now left].
  destruct (format_results env results) as [l|] eqn:Hl; [|discriminate].
  intros [= <-]. right.
  unfold format_results, mbind, outcome_bind in Hl.
  destruct (py_slice env results MAX_SEARCH_RESULTS) as [items|]; [|discriminate].
  apply format_loop_entries in Hl as (entries & -> & _).
  apply join_cons_starts.
Qed.



(** ** The fetch tool: request and removal of elements *)

(** Whatever happens, [fetch_webpage_text] issues exactly one
    request, to the URL it was given, with the default User-Agent as its
    only header; the earlier entries of the log are kept. *)
Lemma fetch_one_request (env : Env) (url : string) (net : Net) :
  snd (fetch_webpage_text env url net)
    = (net ++ [mkRequest url {[ "User-Agent" := USER_AGENT ]}])%list.
Proof. now rewrite fetch_webpage_text_eq. Qed.

Lemma extract_node_tag (names : list string) (name : string)
    (children : list Node) :
  extract_node names (Tag name children)
    = if existsb (String.eqb name) names then None
      else Some (Tag name (extract_all names children)).
Proof.
  cbn [extract_node]. now destruct (existsb _ names).
Qed.

Lemma has_tag_tag (names : list string) (name : string) (children : list Node) :
  has_tag names (Tag name children)
    = existsb (String.eqb name) names || existsb (has_tag names) children.
Proof.
  reflexivity.
Qed.

Lemma all_strings_tag (name : string) (children : list Node) :
  all_strings (Tag name children) = flat_map all_strings children.
Proof.
  reflexivity.
Qed.

Lemma extract_all_cons (names : list string) (n : Node) (soup : list Node) :
  extract_all names (n :: soup)
    = match extract_node names n with
      | Some n' => n' :: extract_all names soup
      | None => extract_all names soup
      end.
Proof. reflexivity. Qed.

Lemma extract_node_clean (names : list string) (n : Node) :
  forall n', extract_node names n = Some n' -> has_tag names n' = false.
Proof.
  induction n as [s|s|name children IH] using Node_induction; intros n'.
  - intros [= <-]. reflexivity.
  - intros [= <-]. reflexivity.
  - rewrite extract_node_tag.
    destruct (existsb (String.eqb name) names) eqn:Hname; [discriminate|].
    intros [= <-]. rewrite has_tag_tag, Hname. cbn [orb].
    induction IH as [|c l Hc _ IHl]; [reflexivity|].
    rewrite extract_all_cons.
    destruct (extract_node names c) as [c'|] eqn:Hc'; [|exact IHl].
    cbn [existsb]. now rewrite (Hc c' eq_refl), IHl.
Qed.

(** X12.  After the removal step no [script], [style], [nav], [footer],
    [header] or [aside] element is left in the tree, at any depth. *)
Theorem no_removed_tag_remains (soup : list Node) :
  existsb (has_tag REMOVED_TAGS) (extract_all REMOVED_TAGS soup) = false.
Proof.
  induction soup as [|n soup IH]; [reflexivity|].
  rewrite extract_all_cons.
  destruct (extract_node REMOVED_TAGS n) as [n'|] eqn:Hn; [|exact IH].
  cbn [existsb]. now rewrite (extract_node_clean _ n n' Hn), IH.
Qed.

Lemma extract_node_strings (names : list string) (n : Node) :
  sublist (from_option all_strings [] (extract_node names n)) (all_strings n).
Proof.
  induction n as [s|s|name children IH] using Node_induction.
  - reflexivity.
  - reflexivity.
  - rewrite extract_node_tag, all_strings_tag.
    destruct (existsb (String.eqb name) names); [apply sublist_nil_l|].
    cbn [from_option]. rewrite all_strings_tag.
    induction IH as [|c l Hc _ IHl]; [reflexivity|].
    rewrite extract_all_cons. cbn [flat_map].
    destruct (extract_node names c) as [c'|].
    + cbn [flat_map]. now apply sublist_app.
    + now apply sublist_inserts_l.
Qed.

(** X13.  The removal step only takes text away: the strings collected
    from the tree after removal are, in the same order, among the
    strings of the tree as parsed. *)
Theorem removal_only_drops_text (soup : list Node) :
  sublist (flat_map all_strings (extract_all REMOVED_TAGS soup))
          (flat_map all_strings soup).
Proof.
  induction soup as [|n soup IH]; [reflexivity|].
  rewrite extract_all_cons. cbn [flat_map].
  pose proof (extract_node_strings REMOVED_TAGS n) as Hn.
  destruct (extract_node REMOVED_TAGS n) as [n'|]; cbn [from_option] in Hn.
  - cbn [flat_map]. now apply sublist_app.
  - now apply sublist_inserts_l.
Qed.

(** ** The clean-up of the text *)

Section Cleanup.

Import PyStr.

Lemma glue_cons (w : string) (ws : list string) :
  String.concat "" (w :: ws) = w ++ String.concat "" ws.
Proof.
  destruct ws as [|w' ws]; [cbn; now rewrite append_nil_r | reflexivity].
Qed.

Lemma squeeze_append (a b : string) : squeeze (a ++ b) = squeeze a ++ squeeze b.
Proof.
  induction a as [|c a IH]; [reflexivity|].
  rewrite append_cons. cbn [squeeze].
  destruct (isspace c); [exact IH | now rewrite append_cons, IH].
Qed.

Lemma squeeze_clean (s : string) : no_space s = true -> squeeze s = s.
Proof.
  induction s as [|c s IH]; [reflexivity|]. cbn [no_space squeeze].
  intros H. apply andb_true_iff in H as [Hc Hs].
  apply negb_true_iff in Hc. now rewrite Hc, IH.
Qed.

(** The words of a string, put end to end, are its characters that are
    not white space. *)
Lemma glue_split_go (s : string) :
  forall cur,
    String.concat "" (split_go cur s)
      = string_of_list_ascii (rev cur) ++ squeeze s.
Proof.
  induction s as [|c s IH]; intros cur.
  - cbn [split_go squeeze]. rewrite append_nil_r. now destruct cur.
  - cbn [split_go squeeze]. destruct (isspace c).
    + destruct cur as [|x cur]; cbn [flush app].
      * rewrite IH. reflexivity.
      * rewrite glue_cons, IH. reflexivity.
    + rewrite IH. cbn [rev]. apply string_of_snoc.
Qed.

Lemma squeeze_join (ws : list string) :
  Forall word ws -> squeeze (join " " ws) = String.concat "" ws.
Proof.
  unfold join. induction 1 as [|w ws [_ Hw] _ IH]; [reflexivity|].
  rewrite glue_cons. destruct ws as [|w' ws].
  - cbn. rewrite append_nil_r. now apply squeeze_clean.
  - change (String.concat " " (w :: w' :: ws))
      with (w ++ String " "%char (String.concat " " (w' :: ws))).
    rewrite squeeze_append, (squeeze_clean w Hw). f_equal. exact IH.
Qed.

(** X14.  The clean-up [' '.join(text.split())] changes white space
    only: the characters that are not white space are the same, in the
    same order, before and after. *)
Theorem normalize_keeps_characters (text : string) :
  squeeze (normalize text) = squeeze text.
Proof.
  unfold normalize.
  rewrite (squeeze_join _ (split_words text)).
  unfold split. now rewrite glue_split_go.
Qed.

(** X15.  The clean-up returns the empty string exactly when the text
    holds nothing but white space. *)
Theorem normalize_empty_iff (text : string) :
  normalize text = "" <-> squeeze text = "".
Proof.
  assert (Hglue : String.concat "" (split text) = squeeze text)
    by (unfold split; now rewrite glue_split_go).
  split.
  - intros H. rewrite <- Hglue.
    rewrite <- (squeeze_join _ (split_words text)).
    fold (normalize text). now rewrite H.
  - intros H. rewrite H in Hglue. unfold normalize.
    pose proof (split_words text) as Hwords.
    destruct (split text) as [|w ws]; [reflexivity|].
    rewrite glue_cons in Hglue. apply Forall_cons_1 in Hwords as [[Hne _] _].
    destruct w; [contradiction | discriminate].
Qed.

Lemma tidy_go_clean (u rest : string) :
  no_space u = true -> tidy_go false (u ++ rest) = tidy_go false rest.
Proof.
  induction u as [|c u IH]; [reflexivity|]. cbn [no_space].
  intros H. apply andb_true_iff in H as [Hc Hu].
  apply negb_true_iff in Hc.
  rewrite append_cons. cbn [tidy_go]. now rewrite Hc, IH.
Qed.

Lemma tidy_go_word (w rest : string) (b : bool) :
  word w -> tidy_go b (w ++ rest) = tidy_go false rest.
Proof.
  intros [Hne Hw]. destruct w as [|c w]; [contradiction|].
  cbn [no_space] in Hw. apply andb_true_iff in Hw as [Hc Hw].
  apply negb_true_iff in Hc.
  rewrite append_cons. cbn [tidy_go]. rewrite Hc. now apply tidy_go_clean.
Qed.

Lemma tidy_go_join (ws : list string) :
  Forall word ws -> ws <> [] -> tidy_go true (join " " ws) = true.
Proof.
  unfold join. induction 1 as [|w ws Hw Hws IH]; [contradiction|]. intros _.
  destruct ws as [|w' ws].
  - cbn [String.concat]. rewrite <- (append_nil_r w).
    now rewrite (tidy_go_word w "" true Hw).
  - change (String.concat " " (w :: w' :: ws))
      with (w ++ String " "%char (String.concat " " (w' :: ws))).
    rewrite (tidy_go_word w _ true Hw). cbn [tidy_go].
    change (isspace " "%char) with true. cbn. apply IH. discriminate.
Qed.

(** X16.  In the cleaned text every white-space character is a plain
    space standing alone between two characters that are not white
    space: no tab or newline, no run of spaces, no space at either end. *)
Theorem normalize_is_tidy (text : string) : tidy (normalize text) = true.
Proof.
  unfold normalize.
  pose proof (split_words text) as Hwords.
  destruct (split text) as [|w ws] eqn:E; [reflexivity|].
  assert (H : tidy_go true (join " " (w :: ws)) = true)
    by (apply tidy_go_join; [exact Hwords | discriminate]).
  unfold tidy. now destruct (join " " (w :: ws)).
Qed.

End Cleanup.

(** ** Pages without text, content types, empty results *)

Lemma textless_strings (n : Node) :
  textless n = true ->
  from_option all_strings [] (extract_node REMOVED_TAGS n) = [].
Proof.
  induction n as [s|s|name children IH] using Node_induction.
  - cbn. intros ->. reflexivity.
  - reflexivity.
  - rewrite extract_node_tag.
    change (textless (Tag name children))
      with (existsb (String.eqb name) REMOVED_TAGS || forallb textless children).
    destruct (existsb (String.eqb name) REMOVED_TAGS); [reflexivity|].
    cbn [orb from_option]. rewrite all_strings_tag.
    induction IH as [|c l Hc _ IHl]; [reflexivity|].
    cbn [forallb]. intros H. apply andb_true_iff in H as [Hcl Hl].
    rewrite extract_all_cons. specialize (Hc Hcl).
    destruct (extract_node REMOVED_TAGS c) as [c'|]; cbn [from_option] in Hc.
    + cbn [flat_map]. rewrite Hc. now apply IHl.
    + now apply IHl.
Qed.

Lemma textless_soup (soup : list Node) :
  forallb textless soup = true ->
  flat_map all_strings (extract_all REMOVED_TAGS soup) = [].
Proof.
  induction soup as [|n soup IH]; [reflexivity|].
  cbn [forallb]. intros H. apply andb_true_iff in H as [Hn Hsoup].
  rewrite extract_all_cons. pose proof (textless_strings n Hn) as Hstr.
  destruct (extract_node REMOVED_TAGS n) as [n'|]; cbn [from_option] in Hstr.
  - cbn [flat_map]. rewrite Hstr. now apply IH.
  - now apply IH.
Qed.

(** X17.  When every node of the parsed page is without text (a
    comment, white space, an element of the removal list, or an element
    made of such nodes), [fetch_webpage_text] returns
    "Could not extract any text content from the page.". *)
Theorem fetch_page_without_text (env : Env) (url : string) (net : Net)
    (response : Response) (soup : list Node) :
  serves env (fetch_request url) response ->
  is_html response = true ->
  BeautifulSoup env (resp_text response) = Returned soup ->
  forallb textless soup = true ->
  fst (fetch_webpage_text env url net)
    = Returned "Could not extract any text content from the page.".
Proof.
  intros Hserves Hhtml Hsoup Htextless.
  rewrite (fetch_html_eq env url net response soup Hserves Hhtml Hsoup).
  unfold extract_text, get_text. now rewrite (textless_soup soup Htextless).
Qed.

Lemma fetch_page_without_text_witness :
  fst (fetch_webpage_text
         (Sample.constant_env None
            (Returned (Sample.html_page "text/html"
                         "<body><script>var x = 1;</script><nav><p>Home</p></nav> </body>")))
         "http://example.org/" [])
    = Returned "Could not extract any text content from the page.".
Proof.
  apply (fetch_page_without_text
           (Sample.constant_env None
              (Returned (Sample.html_page "text/html"
                           "<body><script>var x = 1;</script><nav><p>Home</p></nav> </body>")))
           "http://example.org/" []
           (Sample.html_page "text/html"
              "<body><script>var x = 1;</script><nav><p>Home</p></nav> </body>")
           [Tag "body"
              [Tag "script" [NavigableString "var x = 1;"];
               Tag "nav" [Tag "p" [NavigableString "Home"]];
               NavigableString " "]]).
  - split; reflexivity.
  - reflexivity.
  - reflexivity.
  - reflexivity.
Defined.

(** X18.  A node without text is invisible: put anywhere among the
    top-level nodes of a page (a script or style element, a comment,
    white space), it leaves the extracted text unchanged. *)
Theorem textless_node_is_invisible (before after : list Node) (n : Node) :
  textless n = true ->
  extract_text (before ++ n :: after) = extract_text (before ++ after).
Proof.
  intros Hn. unfold extract_text, get_text. f_equal. f_equal.
  induction before as [|b before IH].
  - cbn [app]. rewrite extract_all_cons.
    pose proof (textless_strings n Hn) as Hstr.
    destruct (extract_node REMOVED_TAGS n); cbn [from_option] in Hstr;
      [|reflexivity].
    cbn [flat_map]. now rewrite Hstr.
  - cbn [app]. rewrite !extract_all_cons.
    destruct (extract_node REMOVED_TAGS b); [|exact IH].
    cbn [flat_map]. now rewrite IH.
Qed.

Lemma textless_node_is_invisible_witness :
  extract_text ([Tag "p" [NavigableString "Hello"]]
                ++ Tag "script" [NavigableString "track()"]
                :: [Tag "p" [NavigableString "World"]])
    = extract_text ([Tag "p" [NavigableString "Hello"]]
                    ++ [Tag "p" [NavigableString "World"]]).
Proof.
  apply (textless_node_is_invisible
           [Tag "p" [NavigableString "Hello"]]
           [Tag "p" [NavigableString "World"]]
           (Tag "script" [NavigableString "track()"])).
  reflexivity.
Defined.

Lemma startswith_lower (p s : string) :
  PyStr.startswith p s = true ->
  PyStr.startswith (PyStr.lower p) (PyStr.lower s) = true.
Proof.
  revert s. induction p as [|a p IH]; intros s; [reflexivity|].
  destruct s as [|b s]; [discriminate|]. cbn [PyStr.startswith PyStr.lower].
  destruct (Ascii.eqb_spec a b) as [->|]; [|discriminate].
  rewrite Ascii.eqb_refl. apply IH.
Qed.

Lemma contains_lower (p s : string) :
  PyStr.contains p s = true ->
  PyStr.contains (PyStr.lower p) (PyStr.lower s) = true.
Proof.
  induction s as [|c s IH].
  - cbn [PyStr.contains PyStr.lower]. rewrite !orb_false_r.
    apply (startswith_lower p "").
  - cbn [PyStr.contains PyStr.lower]. intros H.
    apply orb_true_iff in H as [H|H]; apply orb_true_iff.
    + left. now apply (startswith_lower p (String c s)).
    + right. now apply IH.
Qed.

(** X19.  The content-type test ignores letter case: when the header
    holds "text/html" in any spelling of upper and lower case, the page
    is accepted and its text extracted. *)
Theorem fetch_accepts_any_case (env : Env) (url : string) (net : Net)
    (response : Response) (soup : list Node) (value spelling : string) :
  serves env (fetch_request url) response ->
  resp_headers response !! "content-type" = Some value ->
  PyStr.lower spelling = "text/html" ->
  PyStr.contains spelling value = true ->
  BeautifulSoup env (resp_text response) = Returned soup ->
  fst (fetch_webpage_text env url net)
    = Returned
        (if String.eqb (extract_text soup) ""
         then "Could not extract any text content from the page."
         else truncate (extract_text soup)).
Proof.
  intros Hserves Hvalue Hspelling Hcontains Hsoup.
  assert (Hhtml : is_html response = true).
  { unfold is_html, content_type. rewrite Hvalue. cbn [default].
    rewrite <- Hspelling. now apply contains_lower. }
  now rewrite (fetch_html_eq env url net response soup Hserves Hhtml Hsoup).
Qed.

Lemma fetch_accepts_any_case_witness :
  fst (fetch_webpage_text
         (Sample.constant_env None
            (Returned (Sample.html_page "Text/HTML; Charset=UTF-8"
                         "<p>Hello</p>")))
         "http://example.org/" [])
    = Returned
        (if String.eqb (extract_text [Tag "p" [NavigableString "Hello"]]) ""
         then "Could not extract any text content from the page."
         else truncate (extract_text [Tag "p" [NavigableString "Hello"]])).
Proof.
  apply (fetch_accepts_any_case
           (Sample.constant_env None
              (Returned (Sample.html_page "Text/HTML; Charset=UTF-8"
                           "<p>Hello</p>")))
           "http://example.org/" []
           (Sample.html_page "Text/HTML; Charset=UTF-8" "<p>Hello</p>")
           [Tag "p" [NavigableString "Hello"]]
           "Text/HTML; Charset=UTF-8" "Text/HTML").
  - split; reflexivity.
  - reflexivity.
  - reflexivity.
  - reflexivity.
  - reflexivity.
Defined.

Lemma append_not_empty (a b : string) : a <> "" -> a ++ b <> "".
Proof. destruct a; [contradiction | discriminate]. Qed.

Lemma truncate_not_empty (text : string) : text <> "" -> truncate text <> "".
Proof.
  intros H. unfold truncate. apply append_not_empty.
  destruct text; [contradiction | discriminate].
Qed.

Lemma search_report_not_empty (e : PyExc) : search_report e <> "".
Proof. destruct e; discriminate. Qed.

Lemma fetch_report_not_empty (url : string) (e : PyExc) : fetch_report url e <> "".
Proof. destruct e; discriminate. Qed.

Lemma fetch_body_not_empty (env : Env) (response : Response) (s : string) :
  fetch_body env response = Returned s -> s <> "".
Proof.
  unfold fetch_body, mbind, outcome_bind.
  destruct (negb _); [intros [= <-]; discriminate|].
  destruct (BeautifulSoup env _) as [soup|]; [|discriminate].
  destruct (String.eqb_spec (extract_text soup) "") as [|Hne];
    intros [= <-]; [discriminate | now apply truncate_not_empty].
Qed.

(** X20.  Neither tool ever returns the empty string: every outcome,
    a result or an error, is a text with at least one character. *)
Theorem tools_never_return_empty (env : Env) (arg : string) (net : Net) :
  fst (brave_search env arg net) <> Returned ""
  /\ fst (fetch_webpage_text env arg net) <> Returned "".
Proof.
  split.
  - destruct (key_missing env) eqn:Hkey.
    + unfold brave_search. rewrite Hkey. discriminate.
    + rewrite (brave_search_eq env arg net Hkey). cbn [fst].
      destruct (fst (search_try _ _ _ _)) as [s|e] eqn:Htry.
      * rewrite search_try_eq in Htry. cbn [fst] in Htry.
        unfold mbind, outcome_bind in Htry.
        destruct (request_outcome env _ _) as [response|]; [|discriminate].
        apply search_body_returns in Htry as [->|[rest ->]]; discriminate.
      * intros [= H]. now apply (search_report_not_empty e).
  - rewrite fetch_webpage_text_eq. cbn [fst].
    destruct (fst (fetch_try _ _ _)) as [s|e] eqn:Htry.
    + rewrite fetch_try_eq in Htry. cbn [fst] in Htry.
      unfold mbind, outcome_bind in Htry.
      destruct (request_outcome env _ _) as [response|]; [|discriminate].
      intros [= ->]. now apply (fetch_body_not_empty env response "").
    + intros [= H]. now apply (fetch_report_not_empty arg e).
Qed.

(** ** The fields of the search URL *)

Section UrlFields.

Import Url.

Lemma fields_cut (a b : string) :
  lacks "&" a = true -> fields (a ++ String "&" b) = a :: fields b.
Proof.
  induction a as [|c a IH]; [reflexivity|]. cbn [lacks].
  intros H. apply andb_true_iff in H as [Hc Ha].
  apply negb_true_iff in Hc.
  rewrite append_cons. cbn [fields]. now rewrite Hc, (IH Ha).
Qed.

Lemma fields_last (a : string) : lacks "&" a = true -> fields a = [a].
Proof.
  induction a as [|c a IH]; [reflexivity|]. cbn [lacks].
  intros H. apply andb_true_iff in H as [Hc Ha].
  apply negb_true_iff in Hc. cbn [fields]. now rewrite Hc, (IH Ha).
Qed.

Lemma undelimited_lacks (s : string) :
  undelimited s = true <-> lacks "&" s = true /\ lacks "#" s = true.
Proof.
  induction s as [|c s IH]; [cbn; tauto|]. cbn [undelimited lacks].
  rewrite !andb_true_iff, IH. tauto.
Qed.

(** The query component of the URL built from fields without [#]. *)
Lemma query_search_url (query : string) :
  lacks "#" query = true ->
  Url.query (search_url query) = "q=" ++ query ++ "&count=5".
Proof.
  intros H. unfold Url.query.
  change (search_url query)
    with ("https://api.search.brave.com/res/v1/web/search?q="
          ++ (query ++ "&count=5")).
  rewrite before_append by reflexivity.
  rewrite (before_append "#" query "&count=5" H).
  change ("https://api.search.brave.com/res/v1/web/search?q="
          ++ query ++ before "#" "&count=5")
    with ("https://api.search.brave.com/res/v1/web/search"
          ++ String "?" ("q=" ++ query ++ "&count=5")).
  now rewrite after_append.
Qed.

(** X21.  For a query without [&] and [#], the URL [brave_search]
    requests has exactly two fields: [q] with the query as given and
    [count] with 5. *)
Theorem search_url_fields (query : string) :
  undelimited query = true ->
  fields (Url.query (search_url query)) = ["q=" ++ query; "count=5"]
  /\ param "q" (search_url query) = Some query
  /\ param "count" (search_url query) = Some "5".
Proof.
  intros H. apply undelimited_lacks in H as [Hamp Hhash].
  assert (Hfields : fields (Url.query (search_url query))
                    = ["q=" ++ query; "count=5"]).
  { rewrite (query_search_url query Hhash).
    change ("q=" ++ query ++ "&count=5")
      with (("q=" ++ query) ++ String "&" "count=5").
    rewrite fields_cut; [reflexivity|]. exact Hamp. }
  unfold param. rewrite Hfields. repeat split; reflexivity.
Qed.

Lemma search_url_fields_witness :
  fields (Url.query (search_url "rocq prover"))
    = ["q=" ++ "rocq prover"; "count=5"]
  /\ param "q" (search_url "rocq prover") = Some "rocq prover"
  /\ param "count" (search_url "rocq prover") = Some "5".
Proof. apply (search_url_fields "rocq prover"). reflexivity. Defined.

(** X22.  The count sent upstream is not protected: a query that ends
    in "&count=" and a value puts its own [count] field before the fixed
    one, and the first [count] field of the URL is that value. *)
Theorem search_count_can_be_overridden (query value : string) :
  undelimited query = true ->
  undelimited value = true ->
  fields (Url.query (search_url (query ++ "&count=" ++ value)))
    = ["q=" ++ query; "count=" ++ value; "count=5"]
  /\ param "count" (search_url (query ++ "&count=" ++ value)) = Some value.
Proof.
  intros Hq Hv.
  apply undelimited_lacks in Hq as [Hqa Hqh].
  apply undelimited_lacks in Hv as [Hva Hvh].
  assert (Hhash : lacks "#" (query ++ "&count=" ++ value) = true).
  { clear Hqa. induction query as [|c q IH].
    - rewrite append_empty_l. exact Hvh.
    - rewrite append_cons. cbn [lacks] in *.
      apply andb_true_iff in Hqh as [Hc Hq]. now rewrite Hc, IH. }
  assert (Hfields :
            fields (Url.query (search_url (query ++ "&count=" ++ value)))
            = ["q=" ++ query; "count=" ++ value; "count=5"]).
  { rewrite (query_search_url _ Hhash).
    replace ("q=" ++ (query ++ "&count=" ++ value) ++ "&count=5")
      with (("q=" ++ query) ++ String "&" (("count=" ++ value) ++ String "&" "count=5")).
    - rewrite (fields_cut ("q=" ++ query)) by exact Hqa.
      now rewrite (fields_cut ("count=" ++ value)) by exact Hva.
    - rewrite !append_assoc. reflexivity. }
  split; [exact Hfields|].
  unfold param. rewrite Hfields. reflexivity.
Qed.

Lemma search_count_can_be_overridden_witness :
  fields (Url.query (search_url ("rocq" ++ "&count=" ++ "20")))
    = ["q=" ++ "rocq"; "count=" ++ "20"; "count=5"]
  /\ param "count" (search_url ("rocq" ++ "&count=" ++ "20")) = Some "20".
Proof.
  apply (search_count_can_be_overridden "rocq" "20"); reflexivity.
Defined.

End UrlFields.

(** * The tools inside their process *)

Ltac unfold_IO :=
  unfold Hosted.try_except, Hosted.bind, Hosted.ret, Hosted.raise, Hosted.lift,
    Hosted.get, Hosted.print in *.

(** On a sound host [make_request] does what it does without its
    prints, and prints at most one line. *)
Lemma hosted_make_request_sound (host : Host) (env : Env) (url : string)
    (headers : option (gmap string string)) (t : Hosted.Trace) :
  sound host ->
  exists out,
    Hosted.make_request host env url headers t
      = (request_outcome env url
           (client_get env (mkRequest url (sent_headers headers))),
         ((fst t ++ [mkRequest url (sent_headers headers)])%list, out)).
Proof.
  intros (_ & _ & Hout).
  unfold Hosted.make_request, request_outcome, raise_for_status, sent_headers.
  unfold_IO. cbn [fst snd].
  destruct (client_get env _) as [response|[]]; rewrite ?Hout; cbn [fst snd];
    try (eexists; reflexivity).
  destruct ((200 <=? status_code response) && (status_code response <=? 299));
    rewrite ?Hout; eexists; reflexivity.
Qed.

Lemma hosted_search_try_sound (host : Host) (env : Env) (query : string)
    (net : Net) (out : list string) :
  sound host ->
  exists out',
    Hosted.search_try host env (search_url query) (search_headers env) (net, out)
      = (fst (search_try env (search_url query) (search_headers env) net),
         ((net ++ [search_request env query])%list, out')).
Proof.
  intros Hsound.
  destruct (hosted_make_request_sound host env (search_url query)
              (Some (search_headers env)) (net, out) Hsound) as [out' E].
  exists out'. unfold Hosted.search_try, Hosted.bind. rewrite E.
  rewrite search_try_eq. fold (search_request env query). cbn [fst].
  now destruct (request_outcome env _ _).
Qed.

Lemma hosted_fetch_try_sound (host : Host) (env : Env) (url : string)
    (net : Net) (out : list string) :
  sound host ->
  exists out',
    Hosted.fetch_try host env url (net, out)
      = (fst (fetch_try env url net),
         ((net ++ [fetch_request url])%list, out')).
Proof.
  intros Hsound.
  destruct (hosted_make_request_sound host env url None (net, out) Hsound)
    as [out' E].
  exists out'. unfold Hosted.fetch_try, Hosted.bind. rewrite E.
  rewrite fetch_try_eq. fold (fetch_request url). cbn [fst].
  now destruct (request_outcome env _ _).
Qed.

(** On a sound host the tools return what [brave_search] and
    [fetch_webpage_text] return, and issue the same requests. *)
Lemma hosted_agrees (host : Host) (env : Env) (arg : string)
    (net : Net) (out : list string) :
  sound host ->
  (fst (Hosted.brave_search host env arg (net, out))
     = fst (brave_search env arg net)
   /\ fst (snd (Hosted.brave_search host env arg (net, out)))
      = snd (brave_search env arg net))
  /\ (fst (Hosted.fetch_webpage_text host env arg (net, out))
        = fst (fetch_webpage_text env arg net)
      /\ fst (snd (Hosted.fetch_webpage_text host env arg (net, out)))
         = snd (fetch_webpage_text env arg net)).
Proof.
  intros Hsound. pose proof Hsound as (Hclient & Hclose & Hout). split.
  - destruct (key_missing env) eqn:Hkey.
    + unfold Hosted.brave_search, brave_search. rewrite Hkey. split; reflexivity.
    + rewrite (brave_search_eq env arg net Hkey).
      unfold Hosted.brave_search, Hosted.with_client. rewrite Hkey, Hclient, Hclose.
      fold (search_headers env). unfold Hosted.try_except.
      destruct (hosted_search_try_sound host env arg net out Hsound) as [out' ->].
      cbn [fst snd].
      destruct (fst (search_try env _ _ net)) as [s|e]; [split; reflexivity|].
      destruct e; unfold Hosted.search_except; unfold_IO; rewrite ?Hout;
        split; reflexivity.
  - rewrite fetch_webpage_text_eq.
    unfold Hosted.fetch_webpage_text, Hosted.with_client. rewrite Hclient, Hclose.
    unfold Hosted.try_except.
    destruct (hosted_fetch_try_sound host env arg net out Hsound) as [out' ->].
    cbn [fst snd].
    destruct (fst (fetch_try env arg net)) as [s|e]; [split; reflexivity|].
    destruct e; unfold Hosted.fetch_except; unfold_IO; rewrite ?Hout;
      split; reflexivity.
Qed.

(** An exception of the client's construction leaves the tool before
    anything else happens: nothing is requested, nothing printed. *)
Lemma client_failure_is_raised (host : Host) (env : Env) (arg : string)
    (t : Hosted.Trace) (e : PyExc) :
  AsyncClient host = Raised e ->
  Hosted.fetch_webpage_text host env arg t = (Raised e, t)
  /\ (key_missing env = false -> Hosted.brave_search host env arg t = (Raised e, t)).
Proof.
  intros Hclient. split.
  - unfold Hosted.fetch_webpage_text, Hosted.with_client. now rewrite Hclient.
  - intros Hkey. unfold Hosted.brave_search, Hosted.with_client.
    now rewrite Hkey, Hclient.
Qed.

(** When the client can be built and closed and the print of the
    catch-all handlers succeeds, both tools return a string, whatever
    the guarded block and the prints of [make_request] do. *)
Lemma hosted_tools_return (host : Host) (env : Env) (arg : string)
    (t : Hosted.Trace) :
  AsyncClient host = Returned tt ->
  aclose host = Returned tt ->
  (forall text, stdout host ("Unexpected error " ++ text) = Returned tt) ->
  (exists s, fst (Hosted.brave_search host env arg t) = Returned s)
  /\ (exists s, fst (Hosted.fetch_webpage_text host env arg t) = Returned s).
Proof.
  intros Hclient Hclose Hout. split.
  - unfold Hosted.brave_search. destruct (key_missing env); [now eexists|].
    unfold Hosted.with_client, Hosted.try_except. rewrite Hclient, Hclose.
    destruct (Hosted.search_try host env _ _ t) as [[s|e] t']; [now eexists|].
    unfold Hosted.search_except.
    destruct e; unfold_IO; try (now eexists);
      change ("Unexpected error during Brave search: " ++ ?m)
        with ("Unexpected error " ++ ("during Brave search: " ++ m));
      rewrite Hout; now eexists.
  - unfold Hosted.fetch_webpage_text, Hosted.with_client, Hosted.try_except.
    rewrite Hclient, Hclose.
    destruct (Hosted.fetch_try host env arg t) as [[s|e] t']; [now eexists|].
    unfold Hosted.fetch_except.
    destruct e; unfold_IO; try (now eexists);
      change ("Unexpected error fetching/parsing " ++ ?m)
        with ("Unexpected error " ++ ("fetching/parsing " ++ m));
      rewrite Hout; now eexists.
Qed.

(** ** Claim C1: failures that reach the caller *)

(** C1.  The claim does not hold of the code: two failures reach the
    caller.  The client is built by [async with httpx.AsyncClient()]
    outside the [try] (lines 66 and 104): when that raises, here a
    [ValueError] for a proxy setting, both tools raise it.  The catch-all
    handler prints before it returns (lines 90 and 134): when the
    guarded block raises an exception that is neither a
    [ConnectionError] nor a [ValueError] and the print raises, here on a
    standard output that cannot encode the text, both tools raise the
    exception of the print. *)
Theorem tools_raise_to_caller :
  let page :=
    Sample.constant_env (Some "key")
      (Returned (Sample.html_page "text/html" "<p>Hello</p>")) in
  let broken :=
    Sample.constant_env (Some "key") (Raised (OtherException "Invalid port")) in
  let no_client := clientless_host (ValueError "Unknown scheme for proxy URL") in
  let no_output := mute_host (ValueError "'ascii' codec can't encode character") in
  fst (Hosted.brave_search no_client page "rocq" ([], []))
    = Raised (ValueError "Unknown scheme for proxy URL")
  /\ fst (Hosted.fetch_webpage_text no_client page "http://example.org/" ([], []))
     = Raised (ValueError "Unknown scheme for proxy URL")
  /\ fst (Hosted.brave_search no_output broken "rocq" ([], []))
     = Raised (ValueError "'ascii' codec can't encode character")
  /\ fst (Hosted.fetch_webpage_text no_output broken "http://example.org:x/" ([], []))
     = Raised (ValueError "'ascii' codec can't encode character").
Proof. cbv zeta. repeat split; reflexivity. Qed.

(** ** The kinds of output of the search tool *)

(** X10.  Every string [brave_search] returns is of one of five kinds:
    the missing-key message, "No web search results found.", a listing
    that starts with "Search Results:", an error that starts with
    "Error performing search: ", or one that starts with
    "An unexpected error occurred: ". *)
Theorem brave_search_output_kinds (host : Host) (env : Env) (query : string)
    (t : Hosted.Trace) (s : string) :
  fst (Hosted.brave_search host env query t) = Returned s ->
  s = "Error: Brave Search API key (BRAVE_API_KEY) is not configured."
  \/ s = "No web search results found."
  \/ PyStr.startswith "Search Results:" s = true
  \/ PyStr.startswith "Error performing search: " s = true
  \/ PyStr.startswith "An unexpected error occurred: " s = true.
Proof.
  unfold Hosted.brave_search.
  destruct (key_missing env); [intros [= <-]; now left|].
  unfold Hosted.with_client.
  destruct (AsyncClient host); [|discriminate].
  destruct (Hosted.try_except _ _ t) as [o t'] eqn:E.
  destruct (aclose host); [|discriminate]. cbn [fst]. intros ->.
  unfold Hosted.try_except in E.
  destruct (Hosted.search_try host env _ _ t) as [[s'|e] t''] eqn:Htry.
  - injection E as -> _.
    unfold Hosted.search_try, Hosted.bind, Hosted.lift in Htry.
    destruct (Hosted.make_request host env _ _ t) as [[response|] t3];
      [|discriminate].
    injection Htry as Hbody _.
    apply search_body_returns in Hbody as [->|[rest ->]].
    + right. now left.
    + right. right. left. apply startswith_append.
  - right. right. right. unfold Hosted.search_except in E.
    destruct e; unfold_IO;
      try (injection E as <- _; left; apply startswith_append);
      destruct (stdout host _); try discriminate;
      injection E as <- _; right; apply startswith_append.
Qed.

Lemma brave_search_output_kinds_witness :
  "Error performing search: Network error accessing https://api.search.brave.com/res/v1/web/search?q=rocq&count=5: refused"
    = "Error: Brave Search API key (BRAVE_API_KEY) is not configured."
  \/ "Error performing search: Network error accessing https://api.search.brave.com/res/v1/web/search?q=rocq&count=5: refused"
     = "No web search results found."
  \/ PyStr.startswith "Search Results:"
       "Error performing search: Network error accessing https://api.search.brave.com/res/v1/web/search?q=rocq&count=5: refused"
     = true
  \/ PyStr.startswith "Error performing search: "
       "Error performing search: Network error accessing https://api.search.brave.com/res/v1/web/search?q=rocq&count=5: refused"
     = true
  \/ PyStr.startswith "An unexpected error occurred: "
       "Error performing search: Network error accessing https://api.search.brave.com/res/v1/web/search?q=rocq&count=5: refused"
     = true.
Proof.
  apply (brave_search_output_kinds quiet_host
           (Sample.constant_env (Some "key") (Raised (RequestError "refused")))
           "rocq" ([], [])).
  reflexivity.
Defined.
